(** * Wiremit: fee, conversion, limit and amount-parsing rules

    A shallow embedding of [src/lib/utils/financial.ts], of the limit table of
    [src/lib/constants.ts] and of [APIService.getExchangeRates], with the
    properties the specification states about them.

    JavaScript numbers are IEEE 754 binary64 values.  They are modelled by the
    Standard Library's [spec_float] with a 53 bit mantissa and the operations
    of [SpecFloat] (round to nearest, ties to even), so that every definition
    below computes the same value as the TypeScript source. *)

From Stdlib Require Import ZArith QArith Qround Lia Bool Ascii String.
From Stdlib Require Import SpecFloat.
From stdpp Require Import gmap strings list fin_maps pretty.

Local Open Scope Z_scope.

(** ** JavaScript numbers *)

Module JS.

Definition prec : Z := 53.
Definition emax : Z := 1024.

Definition number : Type := spec_float.

Definition NaN : number := S754_nan.
Definition Infinity : number := S754_infinity false.
Definition zero : number := S754_zero false.

(** An integer literal: the nearest double (exact below 2^53). *)
Definition num (z : Z) : number := binary_normalize prec emax z 0 false.

Definition add : number -> number -> number := SFadd prec emax.
Definition sub : number -> number -> number := SFsub prec emax.
Definition mul : number -> number -> number := SFmul prec emax.
Definition div : number -> number -> number := SFdiv prec emax.

(** [a < b], [a <= b], [a > b]; all false when an operand is NaN. *)
Definition lt (a b : number) : bool := SFltb a b.
Definition le (a b : number) : bool := SFleb a b.
Definition gt (a b : number) : bool := SFltb b a.

Definition isNaN (x : number) : bool :=
  match x with S754_nan => true | _ => false end.

Definition isFinite (x : number) : bool :=
  match x with S754_zero _ | S754_finite _ _ _ => true | _ => false end.

(** [Math.ceil]: the least integer not below [x].  A finite double
    [m * 2^e] with [e >= 0] is an integer already; otherwise the mantissa is
    split at the binary point.  The result is at most [m] in magnitude and
    therefore exact.  Values in (-1, 0) give -0. *)
Definition ceil (x : number) : number :=
  match x with
  | S754_finite s m e =>
      if 0 <=? e then x
      else
        let q := Z.shiftr (Zpos m) (- e) in
        let r := Zpos m - Z.shiftl q (- e) in
        if s then
          (if q =? 0 then S754_zero true else binary_normalize prec emax (- q) 0 true)
        else
          binary_normalize prec emax (if r =? 0 then q else q + 1) 0 false
  | _ => x
  end.

(** *** Decimal literals and [parseFloat]: the nearest double to [n / d] *)

Definition round_half_even (n d : Z) : Z :=
  let q := n / d in
  match (2 * (n mod d) ?= d) with
  | Lt => q
  | Gt => q + 1
  | Eq => if Z.even q then q else q + 1
  end.

(** [n / (d * 2^e)] as a fraction of integers, for either sign of [e]. *)
Definition scaled_num (n e : Z) : Z := if e <? 0 then n * 2 ^ (- e) else n.
Definition scaled_den (d e : Z) : Z := if e <? 0 then d else d * 2 ^ e.

(** floor (log2 (n / d)) for positive [n], [d]. *)
Definition log2_ratio (n d : Z) : Z :=
  let l := Z.log2 n - Z.log2 d in
  if scaled_den d l <=? scaled_num n l then l else l - 1.

(** Round to nearest, ties to even, for [0 <= n] and [0 < d]: a normal double
    has its exponent 52 below the binary logarithm of the value, subnormals
    share the exponent -1074; a mantissa rounded up to 2^53 is renormalised and
    a value past the largest double becomes [Infinity]. *)
Definition nearest_double (n d : Z) : number :=
  if n <=? 0 then zero
  else
    let e := Z.max (log2_ratio n d - 52) (-1074) in
    let m := round_half_even (scaled_num n e) (scaled_den d e) in
    let '(m, e) := if m =? 2 ^ 53 then (2 ^ 52, e + 1) else (m, e) in
    if 971 <? e then Infinity
    else match m with
         | Zpos p => S754_finite false p e
         | _ => zero
         end.

(** The decimal literal with digits [n] and [k] digits after the point. *)
Definition dec (n : Z) (k : nat) : number := nearest_double n (10 ^ Z.of_nat k).

(** The exact rational value of a finite double. *)
Definition to_Q (x : number) : option Q :=
  match x with
  | S754_zero _ => Some 0%Q
  | S754_finite s m e =>
      let v := if 0 <=? e then inject_Z (Zpos m * 2 ^ e)
               else Qmake (Zpos m) (Z.to_pos (2 ^ (- e))) in
      Some (Qred (if s then Qopp v else v))
  | _ => None
  end.

End JS.

(** ** [src/lib/constants.ts] *)

Module Constants.
Import JS.

Inductive DestinationCountry := UK | SouthAfrica.

Inductive Tier := basic | premium | enterprise.

Record PerTransaction := { min : number; max : number }.

Record Limits := { daily : number; monthly : number; perTransaction : PerTransaction }.

Definition TRANSACTION_LIMITS (t : Tier) : Limits :=
  match t with
  | basic =>
      {| daily := num 1000; monthly := num 10000;
         perTransaction := {| min := num 1; max := num 500 |} |}
  | premium =>
      {| daily := num 5000; monthly := num 50000;
         perTransaction := {| min := num 1; max := num 2000 |} |}
  | enterprise =>
      {| daily := num 20000; monthly := num 200000;
         perTransaction := {| min := num 1; max := num 10000 |} |}
  end.

End Constants.

(** ** [src/lib/utils/financial.ts]: fee and final amount *)

Module Financial.
Import JS Constants.

(** [Math.ceil((amount * feePercentage) / 100 * 100) / 100] *)
Definition calculateFee (amount : number) (destinationCountry : DestinationCountry) : number :=
  let feePercentage :=
    match destinationCountry with UK => num 10 | SouthAfrica => num 20 end in
  div (ceil (mul (div (mul amount feePercentage) (num 100)) (num 100))) (num 100).

(** [Math.ceil(amountAfterFee * exchangeRate * 100) / 100] *)
Definition calculateFinalAmount (sourceAmount exchangeRate fee : number) : number :=
  let amountAfterFee := sub sourceAmount fee in
  div (ceil (mul (mul amountAfterFee exchangeRate) (num 100))) (num 100).

(** *** [formatCurrency(amount, 'USD')]

    [Intl.NumberFormat('en-US', { style: 'currency', currency: 'USD' })] with
    exactly two fraction digits: the value is rounded to cents (ties away
    from zero), the dollars are grouped by thousands and the dollar sign goes
    in front.  The output holds no run of three capitals, so the
    [.replace(/[A-Z]{3}/, symbol)] that follows leaves it as it is.
    The cents are taken from the value of the double itself; this is what
    [Intl] prints for the whole amounts of the limit table, the only
    arguments [validateTransactionAmount] passes. *)

Definition cents (m : positive) (e : Z) : Z :=
  if 0 <=? e then Zpos m * 2 ^ e * 100
  else
    let n := Zpos m * 100 in
    let d := 2 ^ (- e) in
    if d <=? 2 * (n mod d) then n / d + 1 else n / d.

Definition pad (width : nat) (s : string) : string :=
  String.concat "" (replicate (width - String.length s) "0") +:+ s.

Fixpoint group_thousands (fuel : nat) (n : Z) : string :=
  match fuel with
  | O => pretty n
  | S fuel' =>
      if n <? 1000 then pretty n
      else group_thousands fuel' (n / 1000) +:+ "," +:+ pad 3 (pretty (n mod 1000))
  end.

Definition formatCurrencyUSD (amount : number) : string :=
  match amount with
  | S754_nan => "$NaN"
  | S754_infinity s => (if s then "-" else "") +:+ "$∞"
  | S754_zero s => (if s then "-" else "") +:+ "$0.00"
  | S754_finite s m e =>
      let c := cents m e in
      (if s then "-" else "") +:+ "$"
        +:+ group_thousands (Z.to_nat (Z.log2 c)) (c / 100)
        +:+ "." +:+ pad 2 (pretty (c mod 100))
  end.

End Financial.

(** ** [src/lib/utils/financial.ts]: [validateTransactionAmount] *)

Module LimitValidator.
Import JS Constants Financial.

Record User := {
  id : string;
  email : string;
  name : string;
  phoneNumber : option string;
  isVerified : bool;
  mfaEnabled : bool;
  profileImage : option string;
  tier : Tier;
  createdAt : string;
  lastLoginAt : option string
}.

(** [{ isValid: boolean; error?: string }] *)
Record Validation := { isValid : bool; error : option string }.

(** The two spend arguments default to 0 when the caller leaves them out;
    here they are always given. *)
Definition validateTransactionAmount
    (amount : number) (user : option User) (dailySpent monthlySpent : number) : Validation :=
  match user with
  | None => {| isValid := false; error := Some "User not authenticated" |}
  | Some user =>
      let limits := TRANSACTION_LIMITS (tier user) in
      if lt amount (min (perTransaction limits)) then
        {| isValid := false;
           error := Some ("Minimum transfer amount is "
                          +:+ formatCurrencyUSD (min (perTransaction limits))) |}
      else if gt amount (max (perTransaction limits)) then
        {| isValid := false;
           error := Some ("Maximum transfer amount is "
                          +:+ formatCurrencyUSD (max (perTransaction limits))) |}
      else if gt (add dailySpent amount) (daily limits) then
        {| isValid := false;
           error := Some ("Daily limit of " +:+ formatCurrencyUSD (daily limits)
                          +:+ " would be exceeded") |}
      else if gt (add monthlySpent amount) (monthly limits) then
        {| isValid := false;
           error := Some ("Monthly limit of " +:+ formatCurrencyUSD (monthly limits)
                          +:+ " would be exceeded") |}
      else {| isValid := true; error := None |}
  end.

End LimitValidator.

(** ** [src/lib/utils/financial.ts]: [parseAmount] *)

Module AmountParser.
Import JS.

Definition is_digit (c : ascii) : bool :=
  (48 <=? Z.of_N (N_of_ascii c)) && (Z.of_N (N_of_ascii c) <=? 57).

Definition is_dot (c : ascii) : bool := Ascii.eqb c ".".

(** [input.replace(/[^0-9.]/g, '')] *)
Fixpoint clean (input : string) : string :=
  match input with
  | EmptyString => EmptyString
  | String c rest =>
      if is_digit c || is_dot c then String c (clean rest) else clean rest
  end.

(** [s.split('.')] *)
Fixpoint split_dot (s : string) : list string :=
  match s with
  | EmptyString => [EmptyString]
  | String c rest =>
      if is_dot c then EmptyString :: split_dot rest
      else match split_dot rest with
           | piece :: pieces => String c piece :: pieces
           | [] => [String c EmptyString]
           end
  end.

(** The leading run of digits and what follows it. *)
Fixpoint span_digits (s : string) : string * string :=
  match s with
  | String c rest =>
      if is_digit c then
        let '(ds, tl) := span_digits rest in (String c ds, tl)
      else (EmptyString, s)
  | EmptyString => (EmptyString, EmptyString)
  end.

Definition digit_value (c : ascii) : Z := Z.of_N (N_of_ascii c) - 48.

(** The integer a digit string denotes, read from the left. *)
Fixpoint digits_value (acc : Z) (s : string) : Z :=
  match s with
  | EmptyString => acc
  | String c rest => digits_value (10 * acc + digit_value c) rest
  end.

(** The longest prefix of [s] that is a decimal literal, as its digits before
    and after the point; [None] when no prefix is one (no digit on either
    side of the point). *)
Definition numeric_prefix (s : string) : option (string * string) :=
  let '(int_part, tl) := span_digits s in
  let frac_part :=
    match tl with
    | String c tl' => if is_dot c then fst (span_digits tl') else EmptyString
    | EmptyString => EmptyString
    end in
  match int_part, frac_part with
  | EmptyString, EmptyString => None
  | _, _ => Some (int_part, frac_part)
  end.

(** [parseFloat] on a string of digits and points, which is all [clean]
    leaves (lemma [clean_alphabet]): the longest prefix that is a decimal
    literal is read and rounded to the nearest double; without such a prefix
    the result is [NaN].  Signs, exponents, blanks and the word Infinity
    cannot occur after cleaning. *)
Definition parseFloat (s : string) : number :=
  match numeric_prefix s with
  | None => NaN
  | Some (int_part, frac_part) =>
      dec (digits_value 0 (int_part +:+ frac_part)) (String.length frac_part)
  end.

(** [{ amount: number; isValid: boolean; error?: string }] *)
Record Parsed := { amount : number; isValid : bool; error : option string }.

Definition parseAmount (input : string) : Parsed :=
  let cleaned := clean input in
  let amount := parseFloat cleaned in
  if isNaN amount then
    {| amount := num 0; isValid := false;
       error := Some "Please enter a valid amount" |}
  else if le amount (num 0) then
    {| amount := num 0; isValid := false;
       error := Some "Amount must be greater than zero" |}
  else
    let decimalPlaces := String.length (nth 1 (split_dot cleaned) EmptyString) in
    if (2 <? decimalPlaces)%nat then
      {| amount := num 0; isValid := false;
         error := Some "Amount cannot have more than 2 decimal places" |}
    else {| amount := amount; isValid := true; error := None |}.

End AmountParser.

(** ** [APIService.getExchangeRates] *)

Module RateProvider.
Import JS.

(** A JSON value, as [response.json()] yields it. *)
#[warning="-register-all"]
Inductive json :=
  | JNull
  | JBool (b : bool)
  | JNum (x : number)
  | JStr (s : string)
  | JArr (items : list json)
  | JObj (fields : gmap string json).

(** [APIResponse<T>]; the optional [details] of an error are never set here. *)
Record ApiError := { code : string; message : string }.

Record APIResponse (T : Type) := {
  success : bool;
  data : option T;
  error : option ApiError;
  timestamp : string
}.
Arguments success {T}. Arguments data {T}. Arguments error {T}. Arguments timestamp {T}.

(** [ExchangeRate]: the four properties of the object literal.  The loop
    assigns whatever the payload holds, so a field is any JSON value. *)
Record ExchangeRate := { USD : json; GBP : json; ZAR : json; USDT : json }.

Definition default_rates : ExchangeRate :=
  {| USD := JNum (num 1); GBP := JNum (dec 74 2);
     ZAR := JNum (dec 1775 2); USDT := JNum (num 1) |}.

(** [if (currency in rates) rates[currency] = item[currency]], as far as the
    four currencies go: each is an own property of [rates], so the test holds
    and the assignment replaces it.  Any other name either fails the test or
    (a name inherited from [Object.prototype]) touches a property that is not
    one of the four. *)
Definition assign (currency : string) (value : json) (rates : ExchangeRate) : ExchangeRate :=
  if String.eqb currency "USD" then
    {| USD := value; GBP := GBP rates; ZAR := ZAR rates; USDT := USDT rates |}
  else if String.eqb currency "GBP" then
    {| USD := USD rates; GBP := value; ZAR := ZAR rates; USDT := USDT rates |}
  else if String.eqb currency "ZAR" then
    {| USD := USD rates; GBP := GBP rates; ZAR := value; USDT := USDT rates |}
  else if String.eqb currency "USDT" then
    {| USD := USD rates; GBP := GBP rates; ZAR := ZAR rates; USDT := value |}
  else rates.

(** [Object.keys(item).forEach(...)].  [Object.keys] throws on [null]
    ([None] here); an array, a string, a number or a boolean has index keys
    or none, and none of those is a currency. *)
Definition each_key (item : json) (rates : ExchangeRate) : option ExchangeRate :=
  match item with
  | JNull => None
  | JObj fields => Some (map_fold assign rates fields)
  | _ => Some rates
  end.

(** [response.data.forEach(item => ...)] *)
Fixpoint each_item (items : list json) (rates : ExchangeRate) : option ExchangeRate :=
  match items with
  | [] => Some rates
  | item :: rest =>
      match each_key item rates with
      | Some rates' => each_item rest rates'
      | None => None
      end
  end.

Definition failure (now : string) : APIResponse ExchangeRate :=
  {| success := false; data := None;
     error := Some {| code := "EXCHANGE_RATES_ERROR";
                      message := "Failed to fetch current exchange rates" |};
     timestamp := now |}.

(** The body of [getExchangeRates] after [makeRequest] has answered with
    [response]; [now] is the clock reading put in the timestamp.  Everything
    thrown inside the [try] (the explicit [Error], [forEach] missing on a
    payload that is no array, [Object.keys(null)]) ends in the same failure
    value. *)
Definition getExchangeRates (response : APIResponse json) (now : string)
    : APIResponse ExchangeRate :=
  if negb (success response) then failure now
  else
    match data response with
    | Some (JArr items) =>
        match each_item items default_rates with
        | Some rates =>
            {| success := true; data := Some rates; error := None; timestamp := now |}
        | None => failure now
        end
    | _ => failure now
    end.

End RateProvider.

(** ** The specification's vocabulary

    Definitions that follow the wording of the specification, to be compared
    with the functions above. *)

Module Spec.
Import JS Constants Financial.

(** A number that is greater than zero: a positive double or [Infinity]. *)
Inductive positive_number : number -> Prop :=
  | positive_finite (m : positive) (e : Z) : positive_number (S754_finite false m e)
  | positive_infinite : positive_number Infinity.

(** "fee = ceil(amount * percentage / 100 * 100) / 100", on exact rationals. *)
Definition fee_percentage (c : DestinationCountry) : Q :=
  match c with UK => 10 | SouthAfrica => 20 end.

Definition round_up_to_cent (q : Q) : Q := (Qceiling (q * 100) # 100).

Definition exact_fee (amount : Q) (c : DestinationCountry) : Q :=
  round_up_to_cent (amount * fee_percentage c / 100).

(** "finalAmount = ceil(amountAfterFee * exchangeRate * 100) / 100", on exact
    rationals. *)
Definition exact_final_amount (sourceAmount exchangeRate fee : Q) : Q :=
  round_up_to_cent ((sourceAmount - fee) * exchangeRate).

(** The failures of the limit validator, told apart by their message. *)
Inductive LimitFailure :=
  | Unauthenticated
  | BelowMinimum
  | AboveMaximum
  | DailyLimitExceeded
  | MonthlyLimitExceeded.

Definition limit_failure (v : LimitValidator.Validation) : option LimitFailure :=
  match LimitValidator.error v with
  | None => None
  | Some msg =>
      if String.eqb msg "User not authenticated" then Some Unauthenticated
      else if String.prefix "Minimum transfer amount is $" msg then Some BelowMinimum
      else if String.prefix "Maximum transfer amount is $" msg then Some AboveMaximum
      else if String.prefix "Daily limit of $" msg then Some DailyLimitExceeded
      else if String.prefix "Monthly limit of $" msg then Some MonthlyLimitExceeded
      else None
  end.

(** "Checks in this exact order, returning the first failure". *)
Fixpoint first_failure (checks : list (bool * LimitFailure)) : option LimitFailure :=
  match checks with
  | [] => None
  | (violated, failure) :: rest => if violated then Some failure else first_failure rest
  end.

Definition ordered_checks
    (amount : number) (user : option LimitValidator.User) (dailySpent monthlySpent : number)
    : list (bool * LimitFailure) :=
  match user with
  | None => [(true, Unauthenticated)]
  | Some u =>
      let limits := TRANSACTION_LIMITS (LimitValidator.tier u) in
      [ (lt amount (min (perTransaction limits)), BelowMinimum);
        (gt amount (max (perTransaction limits)), AboveMaximum);
        (gt (add dailySpent amount) (daily limits), DailyLimitExceeded);
        (gt (add monthlySpent amount) (monthly limits), MonthlyLimitExceeded) ]
  end.

(** The failures of the amount parser are their messages. *)
Definition InvalidFormat : string := "Please enter a valid amount".
Definition NonPositive : string := "Amount must be greater than zero".
Definition TooManyDecimals : string := "Amount cannot have more than 2 decimal places".

Definition parse_failure (failure : string) : AmountParser.Parsed :=
  {| AmountParser.amount := num 0; AmountParser.isValid := false;
     AmountParser.error := Some failure |}.

(** Every character is a digit or a point. *)
Fixpoint digits_and_points (s : string) : Prop :=
  match s with
  | EmptyString => True
  | String c rest =>
      (AmountParser.is_digit c || AmountParser.is_dot c = true) /\ digits_and_points rest
  end.

(** "The cleaned string's fractional part": the digits that follow the first
    point, up to the end or to the next point. *)
Definition fractional_part (cleaned : string) : string :=
  match snd (AmountParser.span_digits cleaned) with
  | String _ after_point => fst (AmountParser.span_digits after_point)
  | EmptyString => EmptyString
  end.

(** A well-formed decimal: digits, then optionally a point and more digits,
    and nothing else; at least one digit before the point.  The result is the
    pair of digit strings. *)
Definition well_formed_decimal (s : string) : option (string * string) :=
  let '(int_part, tl) := AmountParser.span_digits s in
  match int_part, tl with
  | EmptyString, _ => None
  | _, EmptyString => Some (int_part, EmptyString)
  | _, String c tl' =>
      let '(frac_part, tl'') := AmountParser.span_digits tl' in
      match tl'' with
      | EmptyString => if AmountParser.is_dot c then Some (int_part, frac_part) else None
      | _ => None
      end
  end.

(** Every character is a digit. *)
Fixpoint all_digits (s : string) : bool :=
  match s with
  | EmptyString => true
  | String c rest => AmountParser.is_digit c && all_digits rest
  end.

(** The fixed set of currencies and [rates[currency]] for each of them. *)
Definition currencies : list string := ["USD"; "GBP"; "ZAR"; "USDT"].

Definition rate_of (currency : string) (rates : RateProvider.ExchangeRate)
    : option RateProvider.json :=
  if String.eqb currency "USD" then Some (RateProvider.USD rates)
  else if String.eqb currency "GBP" then Some (RateProvider.GBP rates)
  else if String.eqb currency "ZAR" then Some (RateProvider.ZAR rates)
  else if String.eqb currency "USDT" then Some (RateProvider.USDT rates)
  else None.

(** The rate the table must hold for [currency] after the payload [items]:
    the value of the last item that has the currency, else the default. *)
Definition last_rate (currency : string) (dflt : RateProvider.json)
    (items : list RateProvider.json) : RateProvider.json :=
  fold_left
    (fun rate item =>
       match item with
       | RateProvider.JObj fields => default rate (fields !! currency)
       | _ => rate
       end)
    items dflt.

(** Whether some item of the payload has the currency. *)
Definition mentions (currency : string) (items : list RateProvider.json) : Prop :=
  Exists (fun item =>
            match item with
            | RateProvider.JObj fields => is_Some (fields !! currency)
            | _ => False
            end) items.

Definition positive_rate (rate : RateProvider.json) : Prop :=
  match rate with
  | RateProvider.JNum x => positive_number x
  | _ => False
  end.

(** A successful answer of [makeRequest] with the given payload. *)
Definition answered (payload : RateProvider.json) : RateProvider.APIResponse RateProvider.json :=
  {| RateProvider.success := true; RateProvider.data := Some payload;
     RateProvider.error := None; RateProvider.timestamp := "2025-01-01T00:00:00.000Z" |}.

(** A user of the basic tier. *)
Definition basic_user : LimitValidator.User :=
  {| LimitValidator.id := "u1"; LimitValidator.email := "user@example.com";
     LimitValidator.name := "User"; LimitValidator.phoneNumber := None;
     LimitValidator.isVerified := true; LimitValidator.mfaEnabled := false;
     LimitValidator.profileImage := None; LimitValidator.tier := basic;
     LimitValidator.createdAt := "2025-01-01T00:00:00.000Z";
     LimitValidator.lastLoginAt := None |}.

End Spec.

(** ** Further vocabulary *)

Module More.
Import JS Constants Financial.

(** Equality of doubles as values of the type (so NaN equals NaN, and +0
    differs from -0). *)
Definition same_number (x y : number) : bool :=
  match x, y with
  | S754_zero a, S754_zero b => Bool.eqb a b
  | S754_infinity a, S754_infinity b => Bool.eqb a b
  | S754_nan, S754_nan => true
  | S754_finite a m e, S754_finite b m' e' => Bool.eqb a b && Pos.eqb m m' && Z.eqb e e'
  | _, _ => false
  end.

(** The exact fee of a whole-dollar amount, in cents. *)
Definition fee_cents (d : DestinationCountry) (dollars : Z) : Z :=
  match d with UK => 10 * dollars | SouthAfrica => 20 * dollars end.

(** The fee of a whole-dollar amount is the exact fee or one cent more. *)
Definition fee_within_a_cent (d : DestinationCountry) (dollars : Z) : bool :=
  let fee := calculateFee (num dollars) d in
  same_number fee (dec (fee_cents d dollars) 2)
  || same_number fee (dec (fee_cents d dollars + 1) 2).

(** The integers [lo], [lo + 1], ..., [lo + len - 1]. *)
Definition range (lo len : Z) : list Z :=
  map (fun i => lo + Z.of_nat i) (seq 0 (Z.to_nat len)).

End More.

(** ** [APIService.makeRequest] and its response cache *)

Module ApiService.
Import JS RateProvider.

(** What a rejected promise carries: an [Error] with its message, or any other
    value. *)
Inductive Thrown := ErrorObject (message : string) | OtherValue.

(** The answer of [fetch]: the promise is rejected, or resolves to a response
    with its [ok] flag, status line and the outcome of [response.json()]. *)
Record HttpResponse := {
  ok : bool;
  status : N;
  statusText : string;
  json_body : Thrown + json
}.

Inductive Fetched := Rejected (thrown : Thrown) | Resolved (response : HttpResponse).

(** The clock readings one call may take: [Date.now()] at the cache test,
    [new Date().toISOString()] for the result, [Date.now()] when the result
    is stored. *)
Record Clock := { now_check : number; now_iso : string; now_store : number }.

(** [{ data: any; timestamp: number; ttl: number }] *)
Record CacheEntry := {
  entry_data : APIResponse json;
  entry_timestamp : number;
  entry_ttl : number
}.

(** Truthiness of the optional [cacheTTL]: absent, NaN and zero are falsy. *)
Definition truthy (cacheTTL : option number) : bool :=
  match cacheTTL with
  | None | Some S754_nan | Some (S754_zero _) => false
  | Some _ => true
  end.

(** The body of the [try]: what is thrown, or the parsed JSON. *)
Definition attempt (fetched : Fetched) : Thrown + json :=
  match fetched with
  | Rejected thrown => inl thrown
  | Resolved response =>
      if ok response then json_body response
      else inl (ErrorObject ("HTTP " +:+ pretty (status response) +:+ ": "
                             +:+ statusText response))
  end.

Definition network_error (thrown : Thrown) (now : string) : APIResponse json :=
  {| success := false; data := None;
     error := Some {| code := "NETWORK_ERROR";
                      message := match thrown with
                                 | ErrorObject message => message
                                 | OtherValue => "Unknown error occurred"
                                 end |};
     timestamp := now |}.

(** The request proper, once the cache has not answered. *)
Definition request (cache : gmap string CacheEntry) (cacheKey : string)
    (cacheTTL : option number) (clock : Clock) (fetched : Fetched)
    : APIResponse json * gmap string CacheEntry :=
  match attempt fetched with
  | inr body =>
      let result :=
        {| success := true; data := Some body; error := None;
           timestamp := now_iso clock |} in
      (result,
       match cacheTTL with
       | Some ttl =>
           if truthy cacheTTL then
             <[cacheKey := {| entry_data := result; entry_timestamp := now_store clock;
                              entry_ttl := ttl |}]> cache
           else cache
       | None => cache
       end)
  | inl thrown => (network_error thrown (now_iso clock), cache)
  end.

(** [makeRequest(endpoint, options, cacheTTL)] as a function of the cache it
    finds, of the clock and of the answer [fetch] gives if it is called;
    [options] is the text [JSON.stringify(options)].  The result is the
    response and the cache left behind.  Calls are taken one after the
    other. *)
Definition makeRequest (cache : gmap string CacheEntry) (endpoint options : string)
    (cacheTTL : option number) (clock : Clock) (fetched : Fetched)
    : APIResponse json * gmap string CacheEntry :=
  let cacheKey := endpoint +:+ "_" +:+ options in
  if truthy cacheTTL then
    match cache !! cacheKey with
    | Some entry =>
        if lt (sub (now_check clock) (entry_timestamp entry)) (entry_ttl entry)
        then (entry_data entry, cache)
        else request (delete cacheKey cache) cacheKey cacheTTL clock fetched
    | None => request cache cacheKey cacheTTL clock fetched
    end
  else request cache cacheKey cacheTTL clock fetched.

(** [API_ENDPOINTS.exchangeRates] and [JSON.stringify({ method: 'GET' })]. *)
Definition exchangeRates_endpoint : string :=
  "https://68976304250b078c2041c7fc.mockapi.io/api/wiremit/InterviewAPIS".

Definition quote : string := String (ascii_of_nat 34) EmptyString.

Definition GET_options : string :=
  "{" +:+ quote +:+ "method" +:+ quote +:+ ":" +:+ quote +:+ "GET" +:+ quote +:+ "}".

(** [getExchangeRates()] with its call of [makeRequest]: five minutes of
    caching; [now] is the clock reading for the timestamp of the result. *)
Definition fetchExchangeRates (cache : gmap string CacheEntry) (clock : Clock)
    (fetched : Fetched) (now : string)
    : APIResponse ExchangeRate * gmap string CacheEntry :=
  let '(response, cache') :=
    makeRequest cache exchangeRates_endpoint GET_options
      (Some (mul (mul (num 5) (num 60)) (num 1000))) clock fetched in
  (getExchangeRates response now, cache').

(** Every cached response is a successful one. *)
Definition only_successes (cache : gmap string CacheEntry) : Prop :=
  forall key entry, cache !! key = Some entry -> success (entry_data entry) = true.

End ApiService.

(** ** Security utilities: validation and sanitizing

    The functions of this part look at single characters and at lengths, so a
    JavaScript string is taken as what it is, a list of UTF-16 code units. *)

Module Security.
Import JS.

Definition units (s : string) : list N := map N_of_ascii (list_ascii_of_string s).

Definition between (lo hi c : N) : bool := ((lo <=? c) && (c <=? hi))%N.

(** [/[A-Z]/], [/[a-z]/] and [/\d/] *)
Definition is_upper (c : N) : bool := between 65 90 c.
Definition is_lower (c : N) : bool := between 97 122 c.
Definition is_decimal (c : N) : bool := between 48 57 c.

Definition is_unit (k c : N) : bool := (c =? k)%N.

(** The class of special characters of the last rule, in the order of the
    source; the code unit 34 is the double quote, 92 the backslash. *)
Definition special_units : list N :=
  units "!@#$%^&*()_+-=[]{};':" ++ [34%N; 92%N] ++ units "|,.<>/?".

Definition is_special (c : N) : bool := existsb (is_unit c) special_units.

(** [VALIDATION_RULES.password] and [VALIDATION_RULES.phone] *)
Record PasswordRules := {
  minLength : nat;
  requireUppercase : bool;
  requireLowercase : bool;
  requireNumbers : bool;
  requireSpecialChars : bool
}.

Definition password_rules : PasswordRules :=
  {| minLength := 8; requireUppercase := true; requireLowercase := true;
     requireNumbers := true; requireSpecialChars := true |}.

Definition phone_minLength : nat := 10.
Definition phone_maxLength : nat := 15.

(** [if (condition) errors.push(message)] *)
Definition push_if (condition : bool) (message : string) (errors : list string) : list string :=
  if condition then errors ++ [message] else errors.

Record PasswordCheck := { password_isValid : bool; errors : list string }.

Definition validatePassword (password : list N) : PasswordCheck :=
  let rules := password_rules in
  let errors := [] in
  let errors :=
    push_if (length password <? minLength rules)%nat
      ("Password must be at least " +:+ pretty (minLength rules) +:+ " characters") errors in
  let errors :=
    push_if (requireUppercase rules && negb (existsb is_upper password))
      "Password must contain at least one uppercase letter" errors in
  let errors :=
    push_if (requireLowercase rules && negb (existsb is_lower password))
      "Password must contain at least one lowercase letter" errors in
  let errors :=
    push_if (requireNumbers rules && negb (existsb is_decimal password))
      "Password must contain at least one number" errors in
  let errors :=
    push_if (requireSpecialChars rules && negb (existsb is_special password))
      "Password must contain at least one special character" errors in
  {| password_isValid := (length errors =? 0)%nat; errors := errors |}.

(** *** [validateEmail]: the pattern [/^[^\s@]+@[^\s@]+\.[^\s@]+$/]

    The pattern is a sequence of single classes and of classes under [+],
    anchored at both ends.  [test] answers whether some way of cutting the
    whole string fits the sequence. *)

Inductive Piece := One (class : N -> bool) | Many (class : N -> bool).

Fixpoint test (pattern : list Piece) : list N -> bool :=
  match pattern with
  | [] => fun s => match s with [] => true | _ => false end
  | One class :: rest =>
      fun s => match s with
               | c :: s' => class c && test rest s'
               | [] => false
               end
  | Many class :: rest =>
      fix many (s : list N) : bool :=
        match s with
        | c :: s' => class c && (test rest s' || many s')
        | [] => false
        end
  end.

(** [\s]: the white space and line terminator code units. *)
Definition is_space (c : N) : bool :=
  existsb (is_unit c)
    [9; 10; 11; 12; 13; 32; 160; 5760; 8232; 8233; 8239; 8287; 12288; 65279]%N
  || between 8192 8202 c.

(** [[^\s@]], and the literal characters *)
Definition no_space_no_at (c : N) : bool := negb (is_space c) && negb (is_unit 64 c).

Definition email_pattern : list Piece :=
  [Many no_space_no_at; One (is_unit 64); Many no_space_no_at;
   One (is_unit 46); Many no_space_no_at].

Definition validateEmail (email : list N) : bool := test email_pattern email.

(** *** [validatePhone] *)

Record PhoneCheck := { phone_isValid : bool; phone_error : option string }.

(** [phone.replace(/[^\d+]/g, '')] *)
Definition clean_phone (phone : list N) : list N :=
  filter (fun c => is_decimal c || is_unit 43 c = true) phone.

Definition starts_with (k : N) (s : list N) : bool :=
  match s with c :: _ => is_unit k c | [] => false end.

Definition validatePhone (phone : list N) : PhoneCheck :=
  let cleaned := clean_phone phone in
  if (length cleaned <? phone_minLength)%nat then
    {| phone_isValid := false;
       phone_error := Some ("Phone number must be at least " +:+ pretty phone_minLength
                            +:+ " digits") |}
  else if (phone_maxLength <? length cleaned)%nat then
    {| phone_isValid := false;
       phone_error := Some ("Phone number cannot exceed " +:+ pretty phone_maxLength
                            +:+ " digits") |}
  else if negb (starts_with 43 cleaned) && negb (starts_with 48 cleaned) then
    {| phone_isValid := false; phone_error := Some "Phone number must start with + or 0" |}
  else {| phone_isValid := true; phone_error := None |}.

(** *** [sanitizeInput] *)

(** The replacement of one code unit: the entity of the less-than sign, the
    greater-than sign, the double quote (34), the apostrophe (39) and the
    ampersand, and the unit itself otherwise. *)
Definition entity (c : N) : list N :=
  if is_unit 60 c then units "&lt;"
  else if is_unit 62 c then units "&gt;"
  else if is_unit 34 c then units "&quot;"
  else if is_unit 39 c then units "&#x27;"
  else if is_unit 38 c then units "&amp;"
  else [c].

(** [input.replace(...)] with the class of the five characters, each match
    replaced by [entities[char] || char]. *)
Definition sanitizeInput (input : list N) : list N := flat_map entity input.

End Security.

(** ** Security utilities with state: [checkRateLimit] and
    [detectSuspiciousActivity] *)

Module RateLimit.

(** The stored record and the result.  The count, the number of attempts,
    the window and the clock are whole numbers far below 2^53, on which the
    double operations of the source are exact; they are integers here. *)
Record RateData := { count : Z; resetTime : Z }.

Record RateResult := { allowed : bool; remaining : Z; result_resetTime : Z }.

(** [checkRateLimit(key, attempts, windowMs)] as a function of the storage it
    finds and of the clock reading [now]; the result is what it returns and
    the storage it leaves. *)
Definition checkRateLimit (storage : gmap string RateData) (key : string)
    (attempts windowMs now : Z) : RateResult * gmap string RateData :=
  let storageKey := "rate_limit_" +:+ key in
  let data :=
    match storage !! storageKey with
    | Some stored => stored
    | None => {| count := 0; resetTime := now + windowMs |}
    end in
  let data :=
    if resetTime data <=? now then {| count := 0; resetTime := now + windowMs |}
    else data in
  let allowed := count data <? attempts in
  let data :=
    if allowed then {| count := count data + 1; resetTime := resetTime data |}
    else data in
  ({| allowed := allowed;
      remaining := Z.max 0 (attempts - count data);
      result_resetTime := resetTime data |},
   if allowed then <[storageKey := data]> storage else storage).

(** Calls for one key, one after the other at the given clock readings: the
    answers, and the storage in the end. *)
Fixpoint calls (storage : gmap string RateData) (key : string)
    (attempts windowMs : Z) (times : list Z) : list bool * gmap string RateData :=
  match times with
  | [] => ([], storage)
  | now :: later =>
      let '(result, storage') := checkRateLimit storage key attempts windowMs now in
      let '(answers, storage'') := calls storage' key attempts windowMs later in
      (allowed result :: answers, storage'')
  end.

(** How many of the answers allow the call. *)
Definition granted (answers : list bool) : Z :=
  Z.of_nat (length (filter (fun b => b = true) answers)).

End RateLimit.

Module Activity.
Import JS.

Record Transaction := { amount : number; timestamp : string }.

Record Verdict := { isSuspicious : bool; reason : option string }.

(** [detectSuspiciousActivity(recentTransactions)]; [getTime] stands for
    [new Date(t).getTime()], which is NaN for a text that is no date, and
    [now1], [now2] for the two readings of [Date.now()]. *)
Definition detectSuspiciousActivity (getTime : string -> number) (now1 now2 : number)
    (recentTransactions : list Transaction) : Verdict :=
  let last24Hours := sub now1 (mul (mul (mul (num 24) (num 60)) (num 60)) (num 1000)) in
  let recentLarge :=
    List.filter (fun t => gt (getTime (timestamp t)) last24Hours && gt (amount t) (num 1000))
      recentTransactions in
  if (3 <=? length recentLarge)%nat then
    {| isSuspicious := true; reason := Some "Multiple large transactions in 24 hours" |}
  else
    let lastHour := sub now2 (mul (mul (num 60) (num 60)) (num 1000)) in
    let recentCount :=
      length (List.filter (fun t => gt (getTime (timestamp t)) lastHour) recentTransactions) in
    if (5 <=? recentCount)%nat then
      {| isSuspicious := true; reason := Some "Too many transactions in the last hour" |}
    else {| isSuspicious := false; reason := None |}.

End Activity.

(** ** [src/lib/utils/financial.ts]: savings, verification, processing time *)

Module FinancialMore.
Import JS Constants.

(** [a >= b] *)
Definition ge (a b : number) : bool := SFleb b a.

(** [Math.max] of two numbers: NaN if either is, the larger otherwise, and
    +0 rather than -0. *)
Definition Math_max (a b : number) : number :=
  if isNaN a || isNaN b then NaN
  else if lt a b then b
  else if lt b a then a
  else match a with S754_zero true => b | _ => a end.

(** [Math.max(0, traditionalFee - ourFee)] with a traditional fee of 15%. *)
Definition calculateSavings (amount ourFee : number) : number :=
  let traditionalFee := mul amount (dec 15 2) in
  Math_max (num 0) (sub traditionalFee ourFee).

(** [COUNTRIES] of [constants.ts] *)
Record Country := {
  name : string;
  currency : string;
  flag : string;
  feePercentage : number;
  processingTime : string
}.

Definition COUNTRIES (c : DestinationCountry) : Country :=
  match c with
  | UK =>
      {| name := "United Kingdom"; currency := "GBP"; flag := "🇬🇧";
         feePercentage := num 10; processingTime := "1-2 business days" |}
  | SouthAfrica =>
      {| name := "South Africa"; currency := "ZAR"; flag := "🇿🇦";
         feePercentage := num 20; processingTime := "2-3 business days" |}
  end.

Definition getProcessingTimeEstimate (destinationCountry : DestinationCountry) : string :=
  processingTime (COUNTRIES destinationCountry).

(** [requiresEnhancedVerification(amount, user)]; [now] is the reading of
    [Date.now()] and [getTime] stands for [new Date(text).getTime()]. *)
Definition requiresEnhancedVerification (getTime : string -> number) (now : number)
    (amount : number) (user : option LimitValidator.User) : bool :=
  match user with
  | None => true
  | Some user =>
      if ge amount (num 1000) then true
      else
        let accountAge := sub now (getTime (LimitValidator.createdAt user)) in
        let isNewUser :=
          lt accountAge (mul (mul (mul (mul (num 7) (num 24)) (num 60)) (num 60)) (num 1000)) in
        isNewUser && ge amount (num 100)
  end.

End FinancialMore.

(** ** [src/lib/countries.ts] *)

Module Countries.

Record CountryData := {
  code : string;
  name : string;
  flag : string;
  phoneCode : string;
  format : option string
}.

Definition COUNTRIES : list CountryData :=
  [ {| code := "ZW"; name := "Zimbabwe"; flag := "🇿🇼"; phoneCode := "+263";
       format := Some "+263 XX XXX XXXX" |};
    {| code := "US"; name := "United States"; flag := "🇺🇸"; phoneCode := "+1";
       format := Some "+1 (XXX) XXX-XXXX" |};
    {| code := "GB"; name := "United Kingdom"; flag := "🇬🇧"; phoneCode := "+44";
       format := Some "+44 XXXX XXXXXX" |};
    {| code := "ZA"; name := "South Africa"; flag := "🇿🇦"; phoneCode := "+27";
       format := Some "+27 XX XXX XXXX" |};
    {| code := "CA"; name := "Canada"; flag := "🇨🇦"; phoneCode := "+1";
       format := Some "+1 (XXX) XXX-XXXX" |};
    {| code := "AU"; name := "Australia"; flag := "🇦🇺"; phoneCode := "+61";
       format := Some "+61 X XXXX XXXX" |};
    {| code := "KE"; name := "Kenya"; flag := "🇰🇪"; phoneCode := "+254";
       format := Some "+254 XXX XXXXXX" |};
    {| code := "NG"; name := "Nigeria"; flag := "🇳🇬"; phoneCode := "+234";
       format := Some "+234 XXX XXX XXXX" |};
    {| code := "GH"; name := "Ghana"; flag := "🇬🇭"; phoneCode := "+233";
       format := Some "+233 XX XXX XXXX" |};
    {| code := "TZ"; name := "Tanzania"; flag := "🇹🇿"; phoneCode := "+255";
       format := Some "+255 XXX XXX XXX" |} ].

(** [COUNTRIES.find(country => country.code === code)] *)
Definition getCountryByCode (wanted : string) : option CountryData :=
  List.find (fun country => String.eqb (code country) wanted) COUNTRIES.

Definition getCountryByPhoneCode (wanted : string) : option CountryData :=
  List.find (fun country => String.eqb (phoneCode country) wanted) COUNTRIES.

(** [s.startsWith(p)] on code units. *)
Fixpoint startsWith (s p : list N) : bool :=
  match p, s with
  | [], _ => true
  | k :: p', c :: s' => (c =? k)%N && startsWith s' p'
  | _ :: _, [] => false
  end.

(** [s.replace(/^\+/, '')] *)
Definition drop_plus (s : list N) : list N :=
  match s with
  | c :: rest => if (c =? 43)%N then rest else s
  | [] => s
  end.

(** [formatPhoneNumber(phone, country)]; a format that is absent or empty is
    falsy. *)
Definition formatPhoneNumber (phone : list N) (country : CountryData) : list N :=
  match format country with
  | None | Some EmptyString => phone
  | Some _ =>
      let cleaned := Security.clean_phone phone in
      if negb (startsWith cleaned (Security.units (phoneCode country))) then
        Security.units (phoneCode country) ++ Security.units " " ++ drop_plus cleaned
      else cleaned
  end.

End Countries.

(** ** [APIService]: the transactions kept in local storage *)

Module Transactions.
Import JS Constants.

Inductive Status := pending | processing | completed | failed | cancelled.

Record Receipt := { receipt_id : string; downloadUrl : string }.

Record Transaction := {
  id : string;
  userId : string;
  recipientName : string;
  recipientEmail : option string;
  recipientPhone : option string;
  destinationCountry : DestinationCountry;
  currency : string;
  sourceAmount : number;
  exchangeRate : number;
  fee : number;
  finalAmount : number;
  status : Status;
  memo : option string;
  transactionHash : option string;
  estimatedArrival : option string;
  createdAt : string;
  completedAt : option string;
  receipt : option Receipt
}.







End Transactions.

(** * Properties *)

Import JS Constants Financial Spec More.

(** ** Numbers: decimal literals are positive *)

Section NearestDouble.

Lemma round_half_even_lower (n d : Z) : 0 < d -> d <= n -> 1 <= round_half_even n d.
Proof.
  intros Hd Hn. unfold round_half_even.
  assert (1 <= n / d) by (apply Z.div_le_lower_bound; lia).
  destruct (2 * (n mod d) ?= d); [destruct (Z.even (n / d))| |]; lia.
Qed.

Lemma log2_ratio_upper (n d : Z) : log2_ratio n d <= Z.log2 n - Z.log2 d.
Proof.
  unfold log2_ratio. destruct (_ <=? _); lia.
Qed.

(** At the exponent chosen for a value of at least 2^-1074 the scaled fraction
    is at least 1. *)
Lemma scaled_fraction_ge_1 (n d e : Z) :
  0 < n -> 0 < d -> d <= n * 2 ^ 1074 ->
  e = Z.max (log2_ratio n d - 52) (-1074) ->
  scaled_den d e <= scaled_num n e.
Proof.
  intros Hn Hd Hsmall He.
  pose proof (log2_ratio_upper n d) as Hl.
  pose proof (Z.log2_nonneg n) as Hln. pose proof (Z.log2_nonneg d) as Hld.
  destruct (Z.log2_spec n Hn) as [Hn1 _]. destruct (Z.log2_spec d Hd) as [_ Hd2].
  unfold scaled_den, scaled_num.
  destruct (Z.ltb_spec e 0) as [Hneg|Hpos].
  - destruct (Z.max_spec (log2_ratio n d - 52) (-1074)) as [[_ Hm]|[_ Hm]];
      rewrite Hm in He.
    + subst e. exact Hsmall.
    + assert (2 ^ Z.succ (Z.log2 d) <= 2 ^ (Z.log2 n + - e)) as Hpow
        by (apply Z.pow_le_mono_r; lia).
      rewrite Z.pow_add_r in Hpow by lia.
      assert (0 < 2 ^ (- e)) by (apply Z.pow_pos_nonneg; lia).
      nia.
  - assert (e = log2_ratio n d - 52) as He' by lia.
    assert (2 ^ (Z.succ (Z.log2 d) + e) <= 2 ^ Z.log2 n) as Hpow
      by (apply Z.pow_le_mono_r; lia).
    rewrite Z.pow_add_r in Hpow by lia.
    assert (0 < 2 ^ e) by (apply Z.pow_pos_nonneg; lia).
    nia.
Qed.

Lemma nearest_double_positive (n d : Z) :
  0 < n -> 0 < d -> d <= n * 2 ^ 1074 -> positive_number (nearest_double n d).
Proof.
  intros Hn Hd Hsmall. unfold nearest_double.
  destruct (Z.leb_spec n 0); [lia|].
  set (e := Z.max (log2_ratio n d - 52) (-1074)).
  pose proof (scaled_fraction_ge_1 n d e Hn Hd Hsmall eq_refl) as Hge.
  assert (0 < scaled_den d e) as Hden.
  { unfold scaled_den. destruct (e <? 0) eqn:E; [lia|].
    apply Z.ltb_ge in E. apply Z.mul_pos_pos; [lia|]. apply Z.pow_pos_nonneg; lia. }
  pose proof (round_half_even_lower _ _ Hden Hge) as Hm.
  destruct (round_half_even (scaled_num n e) (scaled_den d e) =? 2 ^ 53).
  - destruct (971 <? e + 1); constructor.
  - destruct (971 <? e); [constructor|].
    destruct (round_half_even (scaled_num n e) (scaled_den d e)); try lia. constructor.
Qed.

Lemma positive_number_not_NaN (x : number) : positive_number x -> isNaN x = false.
Proof. now destruct 1. Qed.

Lemma positive_number_gt_0 (x : number) : positive_number x -> le x (num 0) = false.
Proof. now destruct 1. Qed.

End NearestDouble.

(** ** The limit table *)

(** C7: for every tier of the limit table the per-transaction minimum is at
    most the maximum and the four limits (minimum, maximum, daily, monthly)
    are non-negative; the basic tier is minimum 1, maximum 500, daily 1000,
    monthly 10000. *)
Theorem limit_table_invariants :
  (forall t : Tier,
      let limits := TRANSACTION_LIMITS t in
      le (min (perTransaction limits)) (max (perTransaction limits)) = true /\
      le (num 0) (min (perTransaction limits)) = true /\
      le (num 0) (max (perTransaction limits)) = true /\
      le (num 0) (daily limits) = true /\
      le (num 0) (monthly limits) = true) /\
  (let limits := TRANSACTION_LIMITS basic in
   to_Q (min (perTransaction limits)) = Some 1%Q /\
   to_Q (max (perTransaction limits)) = Some 500%Q /\
   to_Q (daily limits) = Some 1000%Q /\
   to_Q (monthly limits) = Some 10000%Q).
Proof.
  split.
  - intros []; repeat split; reflexivity.
  - repeat split; reflexivity.
Qed.

(** ** The limit validator *)

Section LimitValidator.
Import LimitValidator.

Variables (amount dailySpent monthlySpent : number).

Lemma validate_unauthenticated :
  validateTransactionAmount amount None dailySpent monthlySpent
  = {| isValid := false; error := Some "User not authenticated" |}.
Proof. reflexivity. Qed.

(** The result is decided by the four comparisons alone. *)
Lemma validate_first_failure (user : option User) :
  limit_failure (validateTransactionAmount amount user dailySpent monthlySpent)
  = first_failure (ordered_checks amount user dailySpent monthlySpent).
Proof.
  destruct user as [u|]; [|reflexivity].
  unfold validateTransactionAmount, ordered_checks, first_failure.
  destruct (tier u); cbv zeta;
    repeat match goal with
           | |- context [if ?c then _ else _] => destruct c
           end; reflexivity.
Qed.

Lemma validate_isValid (user : option User) :
  isValid (validateTransactionAmount amount user dailySpent monthlySpent)
  = bool_decide (first_failure (ordered_checks amount user dailySpent monthlySpent) = None).
Proof.
  destruct user as [u|]; [|reflexivity].
  unfold validateTransactionAmount, ordered_checks, first_failure.
  cbv zeta.
  repeat match goal with
         | |- context [if ?c then _ else _] => destruct c
         end; reflexivity.
Qed.

End LimitValidator.

(** C3: validateTransactionAmount reports the first failing check in the
    order: user absent (Unauthenticated), amount below the tier minimum
    (BelowMinimum), amount above the tier maximum (AboveMaximum), daily spend
    plus amount above the daily limit (DailyLimitExceeded), monthly spend plus
    amount above the monthly limit (MonthlyLimitExceeded), and is valid exactly
    when no check fails.  For a basic-tier user, 0.5 fails with BelowMinimum
    whatever the spend, 600 fails with AboveMaximum, and 500 on top of a daily
    spend of 600 fails with DailyLimitExceeded. *)
Theorem validate_checks_in_order :
  (forall amount user dailySpent monthlySpent,
      let result := LimitValidator.validateTransactionAmount amount user dailySpent monthlySpent in
      let checks := ordered_checks amount user dailySpent monthlySpent in
      limit_failure result = first_failure checks /\
      LimitValidator.isValid result = bool_decide (first_failure checks = None)) /\
  (forall u dailySpent monthlySpent,
      LimitValidator.tier u = basic ->
      limit_failure (LimitValidator.validateTransactionAmount (dec 5 1) (Some u) dailySpent monthlySpent)
      = Some BelowMinimum /\
      limit_failure (LimitValidator.validateTransactionAmount (num 600) (Some u) dailySpent monthlySpent)
      = Some AboveMaximum /\
      limit_failure (LimitValidator.validateTransactionAmount (num 500) (Some u) (num 600) monthlySpent)
      = Some DailyLimitExceeded).
Proof.
  split.
  - intros amount user dailySpent monthlySpent. cbv zeta. split.
    + apply validate_first_failure.
    + apply validate_isValid.
  - intros u dailySpent monthlySpent Hbasic.
    rewrite !validate_first_failure. unfold ordered_checks. rewrite Hbasic.
    repeat split; reflexivity.
Qed.

Lemma validate_checks_in_order_witness :
  limit_failure (LimitValidator.validateTransactionAmount (dec 5 1) (Some basic_user) (num 2000) (num 20000))
  = Some BelowMinimum /\
  limit_failure (LimitValidator.validateTransactionAmount (num 600) (Some basic_user) (num 2000) (num 20000))
  = Some AboveMaximum /\
  limit_failure (LimitValidator.validateTransactionAmount (num 500) (Some basic_user) (num 600) (num 20000))
  = Some DailyLimitExceeded.
Proof.
  apply (proj2 validate_checks_in_order basic_user (num 2000) (num 20000)).
  reflexivity.
Defined.

(** ** The amount parser *)

Section AmountParser.
Import AmountParser.

Lemma digit_is_no_dot (c : ascii) : is_digit c = true -> is_dot c = false.
Proof.
  unfold is_dot. destruct (Ascii.eqb_spec c "."); [subst; discriminate|reflexivity].
Qed.

(** Cleaning leaves digits and points only. *)
Lemma clean_alphabet (input : string) : digits_and_points (clean input).
Proof.
  induction input as [|c rest IH]; simpl; [exact I|].
  destruct (is_digit c || is_dot c) eqn:E; simpl; auto.
Qed.

Lemma span_digits_rest_alphabet (s : string) :
  digits_and_points s -> digits_and_points (snd (span_digits s)).
Proof.
  induction s as [|c rest IH]; simpl; [auto|].
  intros [Hc Hrest]. destruct (is_digit c) eqn:Hd.
  - specialize (IH Hrest). destruct (span_digits rest); exact IH.
  - simpl. rewrite Hd. auto.
Qed.

(** On digits and points, splitting at the points cuts off the leading digits
    first and goes on behind the point that ends them. *)
Lemma split_dot_span (s : string) :
  digits_and_points s ->
  split_dot s
  = fst (span_digits s)
      :: match snd (span_digits s) with
         | String _ after_point => split_dot after_point
         | EmptyString => []
         end.
Proof.
  induction s as [|c rest IH]; simpl; [reflexivity|].
  intros [Hc Hrest]. destruct (is_digit c) eqn:Hd.
  - rewrite (digit_is_no_dot c Hd). rewrite (IH Hrest).
    destruct (span_digits rest); reflexivity.
  - simpl in Hc. rewrite Hc. reflexivity.
Qed.

(** What the code counts, [cleaned.split('.')[1] || ''], is the fractional
    part. *)
Lemma split_dot_fractional_part (s : string) :
  digits_and_points s -> nth 1 (split_dot s) EmptyString = fractional_part s.
Proof.
  intros Hs. rewrite (split_dot_span s Hs). unfold fractional_part.
  pose proof (span_digits_rest_alphabet s Hs) as Hrest.
  destruct (snd (span_digits s)) as [|c after_point]; [reflexivity|].
  destruct Hrest as [_ Hafter]. rewrite (split_dot_span _ Hafter). reflexivity.
Qed.

Lemma not_le_0_iff_gt_0 (x : number) :
  isNaN x = false -> le x (num 0) = negb (gt x (num 0)).
Proof. destruct x as [[]|[]| |[] m e]; intros H; try reflexivity; discriminate. Qed.

(** The four outcomes of [parseAmount], by the three tests it makes. *)
Lemma parseAmount_cases (input : string) :
  let x := parseFloat (clean input) in
  parseAmount input =
    if isNaN x then parse_failure InvalidFormat
    else if le x (num 0) then parse_failure NonPositive
    else if (2 <? String.length (fractional_part (clean input)))%nat
         then parse_failure TooManyDecimals
    else {| amount := x; isValid := true; error := None |}.
Proof.
  cbv zeta. unfold parseAmount.
  rewrite (split_dot_fractional_part _ (clean_alphabet input)). reflexivity.
Qed.

Lemma well_formed_numeric_prefix (s int_part frac_part : string) :
  well_formed_decimal s = Some (int_part, frac_part) ->
  numeric_prefix s = Some (int_part, frac_part) /\ fractional_part s = frac_part.
Proof.
  unfold well_formed_decimal, numeric_prefix, fractional_part.
  destruct (span_digits s) as [i tl]. simpl.
  destruct i as [|c i]; [discriminate|].
  destruct tl as [|c' tl'].
  - intros [= <- <-]. auto.
  - destruct (span_digits tl') as [f tl'']. simpl.
    destruct tl''; [|discriminate].
    destruct (is_dot c'); [|discriminate].
    intros [= <- <-]. auto.
Qed.

Lemma small_power_of_ten (k : nat) : (k <= 2)%nat -> 0 < 10 ^ Z.of_nat k <= 100.
Proof.
  intros Hk. destruct k as [|[|[|k]]]; [cbn; lia..|lia].
Qed.

End AmountParser.

(** C9: the cleaned form of "1.23.45" keeps both points, and parseAmount
    accepts it with amount 1.23: parseFloat reads the literal up to the second
    point, and the decimal-places check counts the two digits between the
    first and the second point. *)
Theorem parseAmount_two_points :
  AmountParser.clean "1.23.45" = "1.23.45" /\
  AmountParser.split_dot "1.23.45" = ["1"; "23"; "45"] /\
  AmountParser.numeric_prefix "1.23.45" = Some ("1", "23") /\
  AmountParser.parseAmount "1.23.45"
  = {| AmountParser.amount := dec 123 2; AmountParser.isValid := true;
       AmountParser.error := None |}.
Proof. repeat split; reflexivity. Qed.

(** C10: whenever parseAmount returns valid = false, whichever of the three
    failures it is, the amount of the result is exactly 0. *)
Theorem parseAmount_failure_amount_zero (input : string) :
  AmountParser.isValid (AmountParser.parseAmount input) = false ->
  AmountParser.amount (AmountParser.parseAmount input) = num 0.
Proof.
  rewrite parseAmount_cases. cbv zeta.
  destruct (isNaN _); [reflexivity|].
  destruct (le _ _); [reflexivity|].
  destruct (_ <? _)%nat; [reflexivity|].
  discriminate.
Qed.

Lemma parseAmount_failure_amount_zero_witness :
  AmountParser.amount (AmountParser.parseAmount "abc") = num 0.
Proof. apply (parseAmount_failure_amount_zero "abc"). reflexivity. Defined.

(** C4, as the claim states it, fails: the minus sign of "-5" is stripped with
    every other character that is no digit and no point, and 5 is accepted. *)
Lemma parseAmount_minus_5_accepted :
  AmountParser.clean "-5" = "5" /\
  AmountParser.parseAmount "-5"
  = {| AmountParser.amount := num 5; AmountParser.isValid := true;
       AmountParser.error := None |} /\
  AmountParser.error (AmountParser.parseAmount "-5") <> Some NonPositive.
Proof. repeat split; try reflexivity. discriminate. Qed.

(** C4, amended: parseAmount fails with NonPositive for every input whose
    cleaned string parses to a number that is at most 0, as "0" and "-0.00"
    do; the sign is not part of the cleaned string. *)
Theorem parseAmount_non_positive (input : string) :
  le (AmountParser.parseFloat (AmountParser.clean input)) (num 0) = true ->
  AmountParser.parseAmount input = parse_failure NonPositive.
Proof.
  intros Hle. rewrite parseAmount_cases. cbv zeta. rewrite Hle.
  destruct (AmountParser.parseFloat _); try reflexivity. discriminate.
Qed.

Lemma parseAmount_non_positive_witness :
  AmountParser.parseAmount "-0.00" = parse_failure NonPositive.
Proof. apply (parseAmount_non_positive "-0.00"). reflexivity. Defined.

(** C5: when the cleaned string parses to a finite number greater than 0,
    parseAmount fails with TooManyDecimals exactly when the fractional part of
    the cleaned string has more than 2 digits. *)
Theorem parseAmount_too_many_decimals (input : string) :
  let cleaned := AmountParser.clean input in
  isFinite (AmountParser.parseFloat cleaned) = true ->
  gt (AmountParser.parseFloat cleaned) (num 0) = true ->
  AmountParser.parseAmount input = parse_failure TooManyDecimals
  <-> (2 < String.length (fractional_part cleaned))%nat.
Proof.
  cbv zeta. intros Hfin Hpos. rewrite parseAmount_cases. cbv zeta.
  assert (isNaN (AmountParser.parseFloat (AmountParser.clean input)) = false) as Hnan
    by (destruct (AmountParser.parseFloat _); try reflexivity; discriminate).
  rewrite Hnan, (not_le_0_iff_gt_0 _ Hnan), Hpos. simpl.
  destruct (Nat.ltb_spec 2 (String.length (fractional_part (AmountParser.clean input)))).
  - split; auto.
  - split; [discriminate|lia].
Qed.

Lemma parseAmount_too_many_decimals_witness :
  AmountParser.parseAmount "12.345" = parse_failure TooManyDecimals.
Proof.
  apply (parseAmount_too_many_decimals "12.345"); [reflexivity|reflexivity|].
  vm_compute. lia.
Defined.

(** C6, as the claim states it, fails: a cleaned string of 310 digits parses
    to Infinity, which is no finite number, and parseAmount accepts it, since
    the only test is isNaN. *)
Lemma parseAmount_overflow_accepted :
  let input := String "1" (String.concat "" (replicate 309 "0")) in
  isFinite (AmountParser.parseFloat (AmountParser.clean input)) = false /\
  AmountParser.parseAmount input
  = {| AmountParser.amount := Infinity; AmountParser.isValid := true;
       AmountParser.error := None |} /\
  AmountParser.parseAmount input <> parse_failure InvalidFormat.
Proof.
  cbv zeta.
  assert (AmountParser.parseAmount (String "1" (String.concat "" (replicate 309 "0")))
          = {| AmountParser.amount := Infinity; AmountParser.isValid := true;
               AmountParser.error := None |}) as H by (vm_compute; reflexivity).
  split; [vm_compute; reflexivity|]. split; [exact H|]. rewrite H. discriminate.
Qed.

(** C6, amended: for every input whose cleaned string is a well-formed
    positive decimal with at most 2 fractional digits, parseAmount returns
    valid = true and the double nearest to that decimal, with no further
    rounding; for every input whose cleaned string parses to NaN, as "abc"
    does, it fails with InvalidFormat. *)
Theorem parseAmount_round_trip :
  (forall input int_part frac_part,
      well_formed_decimal (AmountParser.clean input) = Some (int_part, frac_part) ->
      (String.length frac_part <= 2)%nat ->
      0 < AmountParser.digits_value 0 (int_part +:+ frac_part) ->
      AmountParser.parseAmount input
      = {| AmountParser.amount :=
             dec (AmountParser.digits_value 0 (int_part +:+ frac_part))
                 (String.length frac_part);
           AmountParser.isValid := true;
           AmountParser.error := None |}) /\
  (forall input,
      isNaN (AmountParser.parseFloat (AmountParser.clean input)) = true ->
      AmountParser.parseAmount input = parse_failure InvalidFormat).
Proof.
  split.
  - intros input int_part frac_part Hwf Hlen Hpos.
    destruct (well_formed_numeric_prefix _ _ _ Hwf) as [Hprefix Hfrac].
    rewrite parseAmount_cases. cbv zeta.
    unfold AmountParser.parseFloat. rewrite Hprefix, Hfrac.
    destruct (small_power_of_ten _ Hlen) as [Hd1 Hd2].
    assert (positive_number
              (dec (AmountParser.digits_value 0 (int_part +:+ frac_part))
                   (String.length frac_part))) as Hnum.
    { apply nearest_double_positive; [exact Hpos|exact Hd1|].
      assert (100 <= 2 ^ 1074) by (vm_compute; discriminate).
      assert (0 < 2 ^ 1074) by lia. nia. }
    rewrite (positive_number_not_NaN _ Hnum), (positive_number_gt_0 _ Hnum).
    destruct (Nat.ltb_spec 2 (String.length frac_part)); [lia|reflexivity].
  - intros input Hnan. rewrite parseAmount_cases. cbv zeta. rewrite Hnan. reflexivity.
Qed.

Lemma parseAmount_round_trip_witness :
  AmountParser.parseAmount "123.45"
  = {| AmountParser.amount := dec 12345 2; AmountParser.isValid := true;
       AmountParser.error := None |} /\
  AmountParser.parseAmount "abc" = parse_failure InvalidFormat.
Proof.
  split.
  - apply (proj1 parseAmount_round_trip "123.45" "123" "45"); [reflexivity|simpl; lia|reflexivity].
  - apply (proj2 parseAmount_round_trip "abc"). reflexivity.
Defined.

(** ** Fee and final amount *)

(** C1: at amount 11 to the UK the code returns 1.11, where the fee rounded
    up to the cent is 1.10 exactly: 110 / 100 is rounded to the double 1.1,
    the product with 100 is 110.00000000000001, and Math.ceil makes it 111.
    At amount 1.7000000000000002 the returned fee 0.17 is below the unrounded
    fee.  Reading the claim's formula in doubles does not give the code's
    value either: at amount 3 the code returns 0.30 and the formula 0.31. *)
Theorem calculateFee_rounding :
  ( mul (div (mul (num 11) (num 10)) (num 100)) (num 100) = dec 11000000000000001 14 /\
    ceil (dec 11000000000000001 14) = num 111 /\
    calculateFee (num 11) UK = dec 111 2 /\
    exact_fee 11 UK = (110 # 100)%Q /\
    lt (dec 110 2) (dec 111 2) = true ) /\
  ( exists a fee : Q,
      to_Q (dec 17000000000000002 16) = Some a /\
      to_Q (calculateFee (dec 17000000000000002 16) UK) = Some fee /\
      (fee < a * 10 / 100)%Q ) /\
  ( calculateFee (num 3) UK = dec 30 2 /\
    div (ceil (mul (mul (num 3) (dec 10 2)) (num 100))) (num 100) = dec 31 2 ).
Proof.
  split; [repeat split; vm_compute; reflexivity|].
  split; [|split; vm_compute; reflexivity].
  eexists _, _. split; [vm_compute; reflexivity|].
  split; vm_compute; reflexivity.
Qed.

(** C2: at source amount 110, rate 0.74 and fee 11 the code returns 73.27,
    where (110 - 11) * 0.74 rounded up to the cent is 73.26, both for the
    decimal rate 0.74 and for the double nearest to it.  At source amount
    0.35000000000000003, rate 1 and fee 0 the result 0.35 is below the
    unrounded amount.  The three values the claim names are as it says:
    66.60 for (100, 0.74, 10), fee 40.00 and final amount 2840.00 for 200 to
    South Africa at rate 17.75. *)
Theorem calculateFinalAmount_rounding :
  ( calculateFee (num 110) UK = num 11 /\
    calculateFinalAmount (num 110) (dec 74 2) (num 11) = dec 7327 2 /\
    exact_final_amount 110 (74 # 100) 11 = (7326 # 100)%Q /\
    (exists rate : Q,
        to_Q (dec 74 2) = Some rate /\
        exact_final_amount 110 rate 11 = (7326 # 100)%Q) /\
    lt (dec 7326 2) (dec 7327 2) = true ) /\
  ( exists s result : Q,
      to_Q (dec 35000000000000003 17) = Some s /\
      to_Q (calculateFinalAmount (dec 35000000000000003 17) (num 1) (num 0)) = Some result /\
      (result < (s - 0) * 1)%Q ) /\
  ( calculateFinalAmount (num 100) (dec 74 2) (num 10) = dec 6660 2 /\
    calculateFee (num 200) SouthAfrica = num 40 /\
    calculateFinalAmount (num 200) (dec 1775 2) (num 40) = num 2840 ).
Proof.
  split; [|split].
  - repeat split; try (vm_compute; reflexivity).
    eexists. split; vm_compute; reflexivity.
  - eexists _, _. split; [vm_compute; reflexivity|]. split; vm_compute; reflexivity.
  - repeat split; vm_compute; reflexivity.
Qed.

(** ** The rate provider *)

Section RateProvider.
Import RateProvider.

Lemma rate_of_assign (c k : string) (v d : json) (rates : ExchangeRate) :
  rate_of c rates = Some d ->
  rate_of c (assign k v rates) = Some (if decide (k = c) then v else d).
Proof.
  unfold rate_of, assign.
  destruct (String.eqb_spec c "USD") as [->|]; [|
  destruct (String.eqb_spec c "GBP") as [->|]; [|
  destruct (String.eqb_spec c "ZAR") as [->|]; [|
  destruct (String.eqb_spec c "USDT") as [->|]; [|discriminate]]]];
    intros [= <-];
    (destruct (String.eqb_spec k "USD") as [->|]; [|
     destruct (String.eqb_spec k "GBP") as [->|]; [|
     destruct (String.eqb_spec k "ZAR") as [->|]; [|
     destruct (String.eqb_spec k "USDT") as [->|]]]]);
    case_decide; simpl; congruence.
Qed.

(** One object of the payload: a currency it has is replaced by its value,
    every other one stays. *)
Lemma rate_of_each_key (c : string) (d : json) (fields : gmap string json)
    (rates : ExchangeRate) :
  rate_of c rates = Some d ->
  rate_of c (map_fold assign rates fields) = Some (default d (fields !! c)).
Proof.
  intros Hd.
  apply (map_fold_weak_ind
           (fun r (m : gmap string json) => rate_of c r = Some (default d (m !! c)))).
  - rewrite lookup_empty. exact Hd.
  - intros k v m r Hfresh IH. rewrite (rate_of_assign c k v _ r IH).
    case_decide as Hk.
    + subst k. rewrite lookup_insert_eq. reflexivity.
    + rewrite lookup_insert_ne by exact Hk. reflexivity.
Qed.

Lemma rate_of_each_item (c : string) (items : list json) :
  forall (d : json) (rates rates' : ExchangeRate),
    rate_of c rates = Some d ->
    each_item items rates = Some rates' ->
    rate_of c rates' = Some (last_rate c d items).
Proof.
  induction items as [|item rest IH]; intros d rates rates' Hd Hrun; simpl in *.
  - congruence.
  - destruct item as [| | | | |fields]; simpl in Hrun; try discriminate;
      try (exact (IH _ _ _ Hd Hrun)).
    exact (IH _ _ _ (rate_of_each_key c d fields rates Hd) Hrun).
Qed.

Lemma last_rate_not_mentioned (c : string) (items : list json) :
  forall d : json, ~ mentions c items -> last_rate c d items = d.
Proof.
  unfold mentions, last_rate.
  induction items as [|item rest IH]; intros d Hno; simpl; [reflexivity|].
  assert (~ Exists (fun item => match item with
                                | JObj fields => is_Some (fields !! c)
                                | _ => False
                                end) rest) as Hrest
    by (intros H; apply Hno; now apply Exists_cons_tl).
  destruct item as [| | | | |fields]; try (exact (IH _ Hrest)).
  destruct (fields !! c) as [v|] eqn:E.
  - exfalso. apply Hno. apply Exists_cons_hd. rewrite E. eauto.
  - exact (IH _ Hrest).
Qed.

(** A table is produced only from an array payload, and then holds the last
    payload value, or else the default, of every currency. *)
Lemma getExchangeRates_table (response : APIResponse json) (now : string)
    (rates : ExchangeRate) :
  data (getExchangeRates response now) = Some rates ->
  exists items,
    data response = Some (JArr items) /\
    USD rates = last_rate "USD" (JNum (num 1)) items /\
    GBP rates = last_rate "GBP" (JNum (dec 74 2)) items /\
    ZAR rates = last_rate "ZAR" (JNum (dec 1775 2)) items /\
    USDT rates = last_rate "USDT" (JNum (num 1)) items.
Proof.
  unfold getExchangeRates.
  destruct (success response); simpl; [|discriminate].
  destruct (data response) as [[| | | |items|]|]; simpl; try discriminate.
  destruct (each_item items default_rates) as [r|] eqn:Hrun; simpl; [|discriminate].
  intros [= ->]. exists items. split; [reflexivity|].
  pose proof (fun c d H => rate_of_each_item c items d default_rates rates H Hrun) as Hrate.
  pose proof (Hrate "USD" (JNum (num 1)) eq_refl) as [= Husd].
  pose proof (Hrate "GBP" (JNum (dec 74 2)) eq_refl) as [= Hgbp].
  pose proof (Hrate "ZAR" (JNum (dec 1775 2)) eq_refl) as [= Hzar].
  pose proof (Hrate "USDT" (JNum (num 1)) eq_refl) as [= Husdt].
  auto.
Qed.

End RateProvider.

(** C8, as the claim states it, fails: the loop copies whatever the payload
    holds, so a payload with USD 2 and GBP -1 gives a table in which USD is
    not 1 and GBP is not positive. *)
Lemma getExchangeRates_trusts_payload :
  let payload :=
    RateProvider.JArr
      [ RateProvider.JObj {[ "USD" := RateProvider.JNum (num 2) ]};
        RateProvider.JObj {[ "GBP" := RateProvider.JNum (num (-1)) ]} ] in
  RateProvider.data (RateProvider.getExchangeRates (answered payload) "2025-01-01T00:00:01.000Z")
  = Some {| RateProvider.USD := RateProvider.JNum (num 2);
            RateProvider.GBP := RateProvider.JNum (num (-1));
            RateProvider.ZAR := RateProvider.JNum (dec 1775 2);
            RateProvider.USDT := RateProvider.JNum (num 1) |} /\
  RateProvider.JNum (num 2) <> RateProvider.JNum (num 1) /\
  ~ positive_rate (RateProvider.JNum (num (-1))).
Proof.
  cbv zeta. split; [vm_compute; reflexivity|]. split.
  - intros H. vm_compute in H. discriminate.
  - intros H. vm_compute in H. inversion H.
Qed.

(** C8, amended: every table produced by getExchangeRates comes from an array
    payload and holds, for each of USD, GBP, ZAR and USDT, the value of the
    last payload object that has the currency, or else the default (USD 1,
    GBP 0.74, ZAR 17.75, USDT 1); so USD maps to 1 when no payload object has
    USD, and the four rates are positive when no payload object has any of
    the four currencies. *)
Theorem getExchangeRates_rates
    (response : RateProvider.APIResponse RateProvider.json) (now : string)
    (rates : RateProvider.ExchangeRate) :
  RateProvider.data (RateProvider.getExchangeRates response now) = Some rates ->
  exists items,
    RateProvider.data response = Some (RateProvider.JArr items) /\
    ( RateProvider.USD rates = last_rate "USD" (RateProvider.JNum (num 1)) items /\
      RateProvider.GBP rates = last_rate "GBP" (RateProvider.JNum (dec 74 2)) items /\
      RateProvider.ZAR rates = last_rate "ZAR" (RateProvider.JNum (dec 1775 2)) items /\
      RateProvider.USDT rates = last_rate "USDT" (RateProvider.JNum (num 1)) items ) /\
    ( ~ mentions "USD" items -> RateProvider.USD rates = RateProvider.JNum (num 1) ) /\
    ( (forall c, c ∈ currencies -> ~ mentions c items) ->
      positive_rate (RateProvider.USD rates) /\ positive_rate (RateProvider.GBP rates) /\
      positive_rate (RateProvider.ZAR rates) /\ positive_rate (RateProvider.USDT rates) ).
Proof.
  intros Hrates.
  destruct (getExchangeRates_table response now rates Hrates)
    as (items & Hdata & Husd & Hgbp & Hzar & Husdt).
  exists items. split; [exact Hdata|]. split; [auto|]. split.
  - intros Hno. rewrite Husd. apply last_rate_not_mentioned. exact Hno.
  - intros Hnone.
    rewrite Husd, Hgbp, Hzar, Husdt.
    rewrite !last_rate_not_mentioned
      by (apply Hnone; unfold currencies; set_solver).
    repeat split; vm_compute; constructor.
Qed.

Lemma getExchangeRates_rates_witness :
  exists items,
    RateProvider.data (answered (RateProvider.JArr
        [RateProvider.JObj {[ "EUR" := RateProvider.JNum (dec 92 2) ]}]))
    = Some (RateProvider.JArr items) /\
    ( RateProvider.USD RateProvider.default_rates
      = last_rate "USD" (RateProvider.JNum (num 1)) items /\
      RateProvider.GBP RateProvider.default_rates
      = last_rate "GBP" (RateProvider.JNum (dec 74 2)) items /\
      RateProvider.ZAR RateProvider.default_rates
      = last_rate "ZAR" (RateProvider.JNum (dec 1775 2)) items /\
      RateProvider.USDT RateProvider.default_rates
      = last_rate "USDT" (RateProvider.JNum (num 1)) items ) /\
    ( ~ mentions "USD" items ->
      RateProvider.USD RateProvider.default_rates = RateProvider.JNum (num 1) ) /\
    ( (forall c, c ∈ currencies -> ~ mentions c items) ->
      positive_rate (RateProvider.USD RateProvider.default_rates) /\
      positive_rate (RateProvider.GBP RateProvider.default_rates) /\
      positive_rate (RateProvider.ZAR RateProvider.default_rates) /\
      positive_rate (RateProvider.USDT RateProvider.default_rates) ).
Proof.
  apply (getExchangeRates_rates
           (answered (RateProvider.JArr
              [RateProvider.JObj {[ "EUR" := RateProvider.JNum (dec 92 2) ]}]))
           "2025-01-01T00:00:01.000Z" RateProvider.default_rates).
  vm_compute. reflexivity.
Defined.

(** * Further properties of the code *)

(** ** The amount parser: what the cleaning lets through *)

Section AmountParserMore.
Import AmountParser.

Lemma clean_app (a b : string) : clean (a +:+ b) = clean a +:+ clean b.
Proof.
  induction a as [|c a IH]; simpl; [reflexivity|].
  destruct (is_digit c || is_dot c); simpl; rewrite IH; reflexivity.
Qed.

Lemma clean_fixes_alphabet (s : string) : digits_and_points s -> clean s = s.
Proof.
  induction s as [|c s IH]; simpl; [reflexivity|].
  intros [-> Hs]. rewrite (IH Hs). reflexivity.
Qed.

Lemma gt_0_positive (x : number) : gt x (num 0) = true <-> positive_number x.
Proof.
  split.
  - destruct x as [[]|[]| |[] m e]; try discriminate; constructor.
  - destruct 1; reflexivity.
Qed.

End AmountParserMore.

(** X1: characters that are neither digits nor points do not count, wherever
    they stand: with such characters put between two pieces of the input,
    parseAmount returns what it returns for the two pieces joined.  So "1,234"
    is read as 1234, and "1e5" as 15. *)
Theorem parseAmount_ignores_other_characters (before other after : string) :
  AmountParser.clean other = EmptyString ->
  AmountParser.parseAmount (before +:+ other +:+ after)
  = AmountParser.parseAmount (before +:+ after).
Proof.
  intros Hother. unfold AmountParser.parseAmount.
  rewrite !clean_app, Hother. reflexivity.
Qed.

Lemma parseAmount_ignores_other_characters_witness :
  AmountParser.parseAmount ("1" +:+ "e" +:+ "5") = AmountParser.parseAmount ("1" +:+ "5").
Proof. apply (parseAmount_ignores_other_characters "1" "e" "5"). reflexivity. Defined.

(** [parseAmount] gives the same result for an input and for its cleaned
    form: cleaning a second time changes nothing. *)
Theorem parseAmount_of_cleaned (input : string) :
  AmountParser.clean (AmountParser.clean input) = AmountParser.clean input /\
  AmountParser.parseAmount (AmountParser.clean input) = AmountParser.parseAmount input.
Proof.
  assert (AmountParser.clean (AmountParser.clean input) = AmountParser.clean input) as H
    by (apply clean_fixes_alphabet, clean_alphabet).
  split; [exact H|]. unfold AmountParser.parseAmount. rewrite H. reflexivity.
Qed.

(** X2: a result with valid = true carries no error, its amount is what
    parseFloat reads from the cleaned input, that amount is greater than zero
    (a positive double or Infinity, never NaN, zero or negative), and the
    cleaned input has at most 2 digits after its first point. *)
Theorem parseAmount_valid_result (input : string) :
  AmountParser.isValid (AmountParser.parseAmount input) = true ->
  AmountParser.error (AmountParser.parseAmount input) = None /\
  AmountParser.amount (AmountParser.parseAmount input)
  = AmountParser.parseFloat (AmountParser.clean input) /\
  positive_number (AmountParser.amount (AmountParser.parseAmount input)) /\
  (String.length (fractional_part (AmountParser.clean input)) <= 2)%nat.
Proof.
  rewrite parseAmount_cases. cbv zeta.
  destruct (isNaN _) eqn:Hnan; [discriminate|].
  destruct (le _ _) eqn:Hle; [discriminate|].
  destruct (Nat.ltb_spec 2 (String.length (fractional_part (AmountParser.clean input))));
    [discriminate|].
  intros _. simpl. repeat split; [|lia].
  apply gt_0_positive. rewrite (not_le_0_iff_gt_0 _ Hnan) in Hle.
  now destruct (gt _ _).
Qed.

Lemma parseAmount_valid_result_witness :
  AmountParser.error (AmountParser.parseAmount "$1,234.50") = None /\
  AmountParser.amount (AmountParser.parseAmount "$1,234.50")
  = AmountParser.parseFloat (AmountParser.clean "$1,234.50") /\
  positive_number (AmountParser.amount (AmountParser.parseAmount "$1,234.50")) /\
  (String.length (fractional_part (AmountParser.clean "$1,234.50")) <= 2)%nat.
Proof. apply (parseAmount_valid_result "$1,234.50"). reflexivity. Defined.

(** The error is one of the three messages exactly when valid = false,
    and absent exactly when valid = true. *)
Theorem parseAmount_error_iff_invalid (input : string) :
  let result := AmountParser.parseAmount input in
  (AmountParser.isValid result = true <-> AmountParser.error result = None) /\
  (AmountParser.isValid result = false <->
   AmountParser.error result = Some InvalidFormat \/
   AmountParser.error result = Some NonPositive \/
   AmountParser.error result = Some TooManyDecimals).
Proof.
  cbv zeta. rewrite parseAmount_cases. cbv zeta.
  destruct (isNaN _); [|destruct (le _ _); [|destruct (_ <? _)%nat]]; simpl;
    (split; split; intros H; try discriminate; try reflexivity; auto;
     try (destruct H as [H|[H|H]]; discriminate)).
Qed.

Section SecondPoint.
Import AmountParser.

Lemma all_digits_alphabet (s : string) : all_digits s = true -> digits_and_points s.
Proof.
  induction s as [|c s IH]; simpl; [auto|].
  intros [Hc Hs]%andb_prop. rewrite Hc. auto.
Qed.

Lemma clean_digits (s : string) : all_digits s = true -> clean s = s.
Proof. intros H. apply clean_fixes_alphabet, all_digits_alphabet, H. Qed.

(** Digits followed by a point: the span is the digits, the rest starts at the
    point. *)
Lemma span_digits_point (ds rest : string) :
  all_digits ds = true ->
  span_digits (ds +:+ String "." rest) = (ds, String "." rest).
Proof.
  induction ds as [|c ds IH]; simpl; [reflexivity|].
  intros [Hc Hds]%andb_prop. rewrite Hc, (IH Hds). reflexivity.
Qed.

Lemma span_digits_all (ds : string) :
  all_digits ds = true -> span_digits ds = (ds, EmptyString).
Proof.
  induction ds as [|c ds IH]; simpl; [reflexivity|].
  intros [Hc Hds]%andb_prop. rewrite Hc, (IH Hds). reflexivity.
Qed.

End SecondPoint.

(** X3: whatever follows a second point is ignored.  For digit strings a
    and b and any text c, parseAmount returns for a.b.c what it returns for
    a.b: neither parseFloat nor the count of decimal places looks past the
    second point. *)
Theorem parseAmount_ignores_after_second_point (a b c : string) :
  all_digits a = true -> all_digits b = true ->
  AmountParser.parseAmount (a +:+ "." +:+ b +:+ "." +:+ c)
  = AmountParser.parseAmount (a +:+ "." +:+ b).
Proof.
  intros Ha Hb.
  rewrite !parseAmount_cases. cbv zeta.
  rewrite !clean_app, (clean_digits a Ha), (clean_digits b Hb).
  change (AmountParser.clean ".") with ".".
  assert (forall tl : string,
             AmountParser.numeric_prefix (a +:+ "." +:+ b +:+ "." +:+ tl)
             = AmountParser.numeric_prefix (a +:+ "." +:+ b) /\
             fractional_part (a +:+ "." +:+ b +:+ "." +:+ tl)
             = fractional_part (a +:+ "." +:+ b)) as Hsame.
  { intros tl. unfold AmountParser.numeric_prefix, fractional_part.
    change ("." +:+ b +:+ "." +:+ tl) with (String "." (b +:+ String "." tl)).
    change ("." +:+ b) with (String "." b).
    rewrite !(span_digits_point a _ Ha). simpl.
    rewrite (span_digits_point b tl Hb), (span_digits_all b Hb). auto. }
  destruct (Hsame (AmountParser.clean c)) as [Hprefix Hfrac].
  unfold AmountParser.parseFloat. rewrite Hprefix, Hfrac. reflexivity.
Qed.

Lemma parseAmount_ignores_after_second_point_witness :
  AmountParser.parseAmount ("1" +:+ "." +:+ "23" +:+ "." +:+ "45")
  = AmountParser.parseAmount ("1" +:+ "." +:+ "23").
Proof.
  apply (parseAmount_ignores_after_second_point "1" "23" "45"); reflexivity.
Defined.

(** ** The limit validator: edge amounts *)

Section LimitValidatorMore.
Import LimitValidator.

Lemma add_NaN (x : number) : add x NaN = NaN.
Proof. now destruct x. Qed.

(** Above a positive double there is every positive double of a smaller
    exponent. *)
Lemma gt_larger_limit (x lim1 lim2 : number) (m1 m2 : positive) (e1 e2 : Z) :
  lim1 = S754_finite false m1 e1 -> lim2 = S754_finite false m2 e2 -> e1 < e2 ->
  isFinite x = true ->
  gt x lim1 = false -> gt x lim2 = false.
Proof.
  intros -> -> He Hfin. destruct x as [[]|[]| |[] m e]; try discriminate; try reflexivity.
  unfold gt, SFltb, SFcompare.
  destruct (Z.compare_spec e1 e); destruct (Z.compare_spec e2 e); try lia;
    try discriminate; reflexivity.
Qed.

Lemma add_0_finite (s : bool) (m : positive) (e : Z) :
  add (num 0) (S754_finite s m e) = S754_finite s m e.
Proof. reflexivity. Qed.

(** With nothing spent, a finite amount that is not above the per-transaction
    maximum is not above the daily or the monthly limit either. *)
Lemma within_max_within_limits (t : Tier) (s : bool) (m : positive) (e : Z) :
  let limits := TRANSACTION_LIMITS t in
  let x := S754_finite s m e in
  gt x (max (perTransaction limits)) = false ->
  gt (add (num 0) x) (daily limits) = false /\
  gt (add (num 0) x) (monthly limits) = false.
Proof.
  cbv zeta. rewrite add_0_finite. intros Hmax.
  destruct t; cbn [TRANSACTION_LIMITS max perTransaction daily monthly] in *;
    split;
    (eapply gt_larger_limit; cycle 4;
     [exact Hmax|vm_compute; reflexivity|vm_compute; reflexivity|lia|reflexivity]).
Qed.

End LimitValidatorMore.

(** X4: with no spend so far, which is also what the default arguments give,
    the daily and the monthly check never fail: in every tier the result is
    valid, BelowMinimum or AboveMaximum, because the per-transaction maximum
    is below both limits. *)
Theorem validate_without_spend (amount : number) (u : LimitValidator.User) :
  let result := LimitValidator.validateTransactionAmount amount (Some u) (num 0) (num 0) in
  limit_failure result = None \/
  limit_failure result = Some BelowMinimum \/
  limit_failure result = Some AboveMaximum.
Proof.
  cbv zeta. rewrite validate_first_failure. unfold ordered_checks.
  destruct amount as [s0|s0| |s m e].
  - right. left. destruct (LimitValidator.tier u), s0; reflexivity.
  - destruct s0; [right; left|right; right];
      destruct (LimitValidator.tier u); reflexivity.
  - left. destruct (LimitValidator.tier u); reflexivity.
  - cbv zeta. unfold first_failure.
    destruct (lt _ _); [auto|].
    destruct (gt (S754_finite s m e) _) eqn:Hmax; [auto|].
    destruct (within_max_within_limits (LimitValidator.tier u) s m e Hmax) as [-> ->].
    auto.
Qed.

(** X5: an amount of NaN passes every check, for every user and every
    spend: each comparison with NaN is false. *)
Theorem validate_NaN_passes (u : LimitValidator.User) (dailySpent monthlySpent : number) :
  LimitValidator.validateTransactionAmount NaN (Some u) dailySpent monthlySpent
  = {| LimitValidator.isValid := true; LimitValidator.error := None |}.
Proof.
  unfold LimitValidator.validateTransactionAmount. rewrite !add_NaN.
  destruct (LimitValidator.tier u); reflexivity.
Qed.

(** X6: in every tier and for every spend, an amount that is at most zero
    fails with BelowMinimum, and an amount of Infinity fails with
    AboveMaximum. *)
Theorem validate_extreme_amounts (u : LimitValidator.User) (dailySpent monthlySpent : number) :
  (forall amount,
      le amount (num 0) = true ->
      limit_failure
        (LimitValidator.validateTransactionAmount amount (Some u) dailySpent monthlySpent)
      = Some BelowMinimum) /\
  limit_failure
    (LimitValidator.validateTransactionAmount Infinity (Some u) dailySpent monthlySpent)
  = Some AboveMaximum.
Proof.
  split.
  - intros amount Hle. rewrite validate_first_failure. unfold ordered_checks.
    destruct amount as [s|[]| |[] m e]; try discriminate;
      destruct (LimitValidator.tier u); reflexivity.
  - rewrite validate_first_failure. unfold ordered_checks.
    destruct (LimitValidator.tier u); reflexivity.
Qed.

Lemma validate_extreme_amounts_witness :
  limit_failure
    (LimitValidator.validateTransactionAmount (num (-5)) (Some basic_user) (num 0) (num 0))
  = Some BelowMinimum.
Proof.
  apply (proj1 (validate_extreme_amounts basic_user (num 0) (num 0)) (num (-5))).
  reflexivity.
Defined.

(** ** Fees of whole-dollar amounts *)

Section WholeDollars.

Lemma same_number_eq (x y : number) : same_number x y = true -> x = y.
Proof.
  destruct x as [a|a| |a m e], y as [b|b| |b m' e']; simpl; try discriminate; auto.
  - intros ->%Bool.eqb_prop. reflexivity.
  - intros ->%Bool.eqb_prop. reflexivity.
  - intros [[->%Bool.eqb_prop ->%Pos.eqb_eq]%andb_prop ->%Z.eqb_eq]%andb_prop.
    reflexivity.
Qed.

Lemma in_range (lo n len : Z) :
  lo <= n < lo + len -> In n (range lo len).
Proof.
  intros H. unfold range. apply in_map_iff. exists (Z.to_nat (n - lo)).
  split; [lia|]. apply in_seq. lia.
Qed.

Lemma fees_checked :
  forallb (fee_within_a_cent UK) (range 1 500) = true /\
  forallb (fee_within_a_cent SouthAfrica) (range 1 500) = true.
Proof. split; vm_compute; reflexivity. Qed.

End WholeDollars.

(** X7: for every whole-dollar amount from 1 to 500 (the per-transaction
    range of the basic tier) and both destinations, calculateFee returns the
    exact fee, 10% or 20% of the amount, or that fee plus one cent; it never
    returns less and is never off by more. *)
Theorem calculateFee_whole_dollars (dollars : Z) (d : DestinationCountry) :
  1 <= dollars <= 500 ->
  calculateFee (num dollars) d = dec (fee_cents d dollars) 2 \/
  calculateFee (num dollars) d = dec (fee_cents d dollars + 1) 2.
Proof.
  intros Hrange.
  assert (In dollars (range 1 500)) as Hin by (apply in_range; lia).
  assert (fee_within_a_cent d dollars = true) as Hok.
  { destruct fees_checked as [Huk Hsa].
    destruct d; [exact (proj1 (forallb_forall _ _) Huk _ Hin)
                |exact (proj1 (forallb_forall _ _) Hsa _ Hin)]. }
  unfold fee_within_a_cent in Hok. apply orb_prop in Hok.
  destruct Hok as [H|H]; apply same_number_eq in H; auto.
Qed.

Lemma calculateFee_whole_dollars_witness :
  calculateFee (num 200) SouthAfrica = dec (fee_cents SouthAfrica 200) 2 \/
  calculateFee (num 200) SouthAfrica = dec (fee_cents SouthAfrica 200 + 1) 2.
Proof. apply (calculateFee_whole_dollars 200 SouthAfrica). lia. Defined.

(** ** The rate provider: when a table is produced *)

Section RateProviderMore.
Import RateProvider.

Lemma each_item_runs (items : list json) (rates : ExchangeRate) :
  is_Some (each_item items rates) <-> JNull ∉ items.
Proof.
  revert rates. induction items as [|item rest IH]; intros rates; simpl.
  - split; [intros _; apply not_elem_of_nil|eauto].
  - rewrite not_elem_of_cons.
    destruct item as [| | | | |fields]; simpl;
      try (rewrite IH; split; [intros H; split; [discriminate|exact H]|intros [_ H]; exact H]).
    split; [intros [x Hx]; discriminate|intros [H _]; congruence].
Qed.

End RateProviderMore.

(** X8: getExchangeRates succeeds exactly when makeRequest succeeded with a
    payload that is an array without a null item; in every other case it
    returns the one failure value, with code EXCHANGE_RATES_ERROR and no
    data.  A success always carries a table. *)
Theorem getExchangeRates_success_iff
    (response : RateProvider.APIResponse RateProvider.json) (now : string) :
  let result := RateProvider.getExchangeRates response now in
  (RateProvider.success result = true <->
   RateProvider.success response = true /\
   exists items, RateProvider.data response = Some (RateProvider.JArr items) /\
                 RateProvider.JNull ∉ items) /\
  (RateProvider.success result = true -> is_Some (RateProvider.data result)) /\
  (RateProvider.success result = false -> result = RateProvider.failure now).
Proof.
  cbv zeta. unfold RateProvider.getExchangeRates.
  destruct (RateProvider.success response); simpl.
  2: { split; [|split]; [|discriminate|reflexivity].
       split; [discriminate|intros [H _]; discriminate]. }
  destruct (RateProvider.data response) as [[| | | |items|]|]; simpl;
    try (split; [|split]; [|discriminate|reflexivity];
         split; [discriminate|intros [_ (items' & H & _)]; discriminate]).
  pose proof (each_item_runs items RateProvider.default_rates) as Hruns.
  destruct (RateProvider.each_item items RateProvider.default_rates) as [rates|]; simpl.
  - split; [|split]; [|eauto|discriminate].
    split; [|reflexivity]. intros _. split; [reflexivity|].
    exists items. split; [reflexivity|]. apply Hruns. eauto.
  - split; [|split]; [|discriminate|reflexivity].
    split; [discriminate|]. intros [_ (items' & [= <-] & Hnull)].
    apply Hruns in Hnull. destruct Hnull as [x Hx]. discriminate.
Qed.

(** ** The response cache of makeRequest *)

Section Cache.
Import RateProvider ApiService.

Variables (cache : gmap string CacheEntry) (endpoint options : string).
Variables (clock : Clock) (fetched : Fetched).

Lemma request_other_keys (key : string) (cacheTTL : option number) (other : string) :
  other <> key ->
  (request cache key cacheTTL clock fetched).2 !! other = cache !! other.
Proof.
  intros Hne. unfold request.
  destruct (attempt fetched); simpl; [reflexivity|].
  destruct cacheTTL as [ttl|]; [|reflexivity].
  destruct (truthy (Some ttl)); [|reflexivity].
  apply lookup_insert_ne. congruence.
Qed.

Lemma request_failure (key : string) (cacheTTL : option number) :
  success (request cache key cacheTTL clock fetched).1 = false ->
  exists thrown, attempt fetched = inl thrown /\
                 request cache key cacheTTL clock fetched
                 = (network_error thrown (now_iso clock), cache).
Proof.
  unfold request. destruct (attempt fetched) as [thrown|body]; simpl.
  - eauto.
  - discriminate.
Qed.

Lemma request_only_successes (key : string) (cacheTTL : option number) :
  only_successes cache ->
  only_successes (request cache key cacheTTL clock fetched).2.
Proof.
  intros Hinv. unfold request.
  destruct (attempt fetched) as [thrown|body]; simpl; [exact Hinv|].
  destruct cacheTTL as [ttl|]; [|exact Hinv].
  destruct (truthy (Some ttl)); [|exact Hinv].
  intros k entry. destruct (decide (k = key)) as [->|Hne].
  - rewrite lookup_insert_eq. intros [= <-]. reflexivity.
  - rewrite lookup_insert_ne by congruence. apply Hinv.
Qed.

End Cache.

Lemma only_successes_delete (cache : gmap string ApiService.CacheEntry) (key : string) :
  ApiService.only_successes cache -> ApiService.only_successes (delete key cache).
Proof.
  intros Hinv k entry Hk. apply lookup_delete_Some in Hk as [_ Hk]. exact (Hinv _ _ Hk).
Qed.

(** X9: without a cache time (cacheTTL absent, zero or NaN) makeRequest
    neither reads nor writes the cache: the cache is left as it was and the
    response is the one an empty cache would give. *)
Theorem makeRequest_without_ttl
    (cache : gmap string ApiService.CacheEntry) (endpoint options : string)
    (cacheTTL : option number) (clock : ApiService.Clock) (fetched : ApiService.Fetched) :
  ApiService.truthy cacheTTL = false ->
  (ApiService.makeRequest cache endpoint options cacheTTL clock fetched).2 = cache /\
  (ApiService.makeRequest cache endpoint options cacheTTL clock fetched).1
  = (ApiService.makeRequest ∅ endpoint options cacheTTL clock fetched).1.
Proof.
  intros Hfalsy. unfold ApiService.makeRequest, ApiService.request. rewrite Hfalsy.
  destruct (ApiService.attempt fetched); simpl; [auto|].
  destruct cacheTTL; auto.
Qed.

Lemma makeRequest_without_ttl_witness :
  (ApiService.makeRequest ∅ "/api/auth" ApiService.GET_options None
     {| ApiService.now_check := num 0; ApiService.now_iso := "2025-01-01T00:00:00.000Z";
        ApiService.now_store := num 0 |}
     (ApiService.Rejected ApiService.OtherValue)).2 = ∅ /\
  (ApiService.makeRequest ∅ "/api/auth" ApiService.GET_options None
     {| ApiService.now_check := num 0; ApiService.now_iso := "2025-01-01T00:00:00.000Z";
        ApiService.now_store := num 0 |}
     (ApiService.Rejected ApiService.OtherValue)).1
  = (ApiService.makeRequest ∅ "/api/auth" ApiService.GET_options None
     {| ApiService.now_check := num 0; ApiService.now_iso := "2025-01-01T00:00:00.000Z";
        ApiService.now_store := num 0 |}
     (ApiService.Rejected ApiService.OtherValue)).1.
Proof. apply makeRequest_without_ttl. reflexivity. Defined.

(** X10: makeRequest touches no cache entry but the one of its own key
    (endpoint, "_" and the options text). *)
Theorem makeRequest_other_keys
    (cache : gmap string ApiService.CacheEntry) (endpoint options : string)
    (cacheTTL : option number) (clock : ApiService.Clock) (fetched : ApiService.Fetched)
    (other : string) :
  other <> endpoint +:+ "_" +:+ options ->
  (ApiService.makeRequest cache endpoint options cacheTTL clock fetched).2 !! other
  = cache !! other.
Proof.
  intros Hne. unfold ApiService.makeRequest.
  destruct (ApiService.truthy cacheTTL); [|apply request_other_keys; exact Hne].
  destruct (cache !! (endpoint +:+ "_" +:+ options)) as [entry|] eqn:Hentry;
    [|apply request_other_keys; exact Hne].
  destruct (lt _ _); [reflexivity|].
  rewrite request_other_keys by exact Hne. apply lookup_delete_ne. congruence.
Qed.

Lemma makeRequest_other_keys_witness :
  (ApiService.makeRequest ∅ "/api/auth" ApiService.GET_options (Some (num 1000))
     {| ApiService.now_check := num 0; ApiService.now_iso := "2025-01-01T00:00:00.000Z";
        ApiService.now_store := num 0 |}
     (ApiService.Rejected ApiService.OtherValue)).2 !! "/api/transactions_{}"
  = (∅ : gmap string ApiService.CacheEntry) !! "/api/transactions_{}".
Proof. apply makeRequest_other_keys. vm_compute. discriminate. Defined.

(** X11: only successful responses are ever cached, and a failure is never
    served from the cache.  If every cached response is a success, then so
    is every cached response after makeRequest, and a response with
    success = false is the NETWORK_ERROR built from a fetch that failed in
    this very call.  The empty cache is such a cache. *)
Theorem makeRequest_caches_only_successes
    (cache : gmap string ApiService.CacheEntry) (endpoint options : string)
    (cacheTTL : option number) (clock : ApiService.Clock) (fetched : ApiService.Fetched) :
  ApiService.only_successes cache ->
  let result := ApiService.makeRequest cache endpoint options cacheTTL clock fetched in
  ApiService.only_successes result.2 /\
  (RateProvider.success result.1 = false ->
   exists thrown,
     ApiService.attempt fetched = inl thrown /\
     result.1 = ApiService.network_error thrown (ApiService.now_iso clock)).
Proof.
  intros Hinv. cbv zeta. unfold ApiService.makeRequest.
  assert (forall c key,
             ApiService.only_successes c ->
             ApiService.only_successes (ApiService.request c key cacheTTL clock fetched).2 /\
             (RateProvider.success (ApiService.request c key cacheTTL clock fetched).1 = false ->
              exists thrown,
                ApiService.attempt fetched = inl thrown /\
                (ApiService.request c key cacheTTL clock fetched).1
                = ApiService.network_error thrown (ApiService.now_iso clock))) as Hrequest.
  { intros c key Hc. split; [apply request_only_successes; exact Hc|].
    intros Hfail. destruct (request_failure c clock fetched key cacheTTL Hfail)
      as (thrown & Hthrown & ->). eauto. }
  destruct (ApiService.truthy cacheTTL); [|apply Hrequest; exact Hinv].
  destruct (cache !! (endpoint +:+ "_" +:+ options)) as [entry|] eqn:Hentry;
    [|apply Hrequest; exact Hinv].
  destruct (lt _ _).
  - simpl. split; [exact Hinv|]. rewrite (Hinv _ _ Hentry). discriminate.
  - apply Hrequest. apply only_successes_delete. exact Hinv.
Qed.

Lemma makeRequest_caches_only_successes_witness :
  let result :=
    ApiService.makeRequest ∅ "/api/auth" ApiService.GET_options (Some (num 1000))
      {| ApiService.now_check := num 0; ApiService.now_iso := "2025-01-01T00:00:00.000Z";
         ApiService.now_store := num 0 |}
      (ApiService.Rejected ApiService.OtherValue) in
  ApiService.only_successes result.2 /\
  (RateProvider.success result.1 = false ->
   exists thrown,
     ApiService.attempt (ApiService.Rejected ApiService.OtherValue) = inl thrown /\
     result.1 = ApiService.network_error thrown "2025-01-01T00:00:00.000Z").
Proof.
  apply (makeRequest_caches_only_successes ∅).
  intros key entry H. rewrite lookup_empty in H. discriminate.
Defined.

(** X12: a response fetched with a cache time is served again.  When the
    first call is not answered from the cache and its fetch succeeds, a
    second call for the same endpoint and options, made while the clock is
    less than the cache time past the moment of storing, returns the same
    response and leaves the cache as it is, whatever fetch would answer. *)
Theorem makeRequest_store_then_hit
    (cache : gmap string ApiService.CacheEntry) (endpoint options : string)
    (ttl : number) (clock : ApiService.Clock) (fetched : ApiService.Fetched)
    (body : RateProvider.json) :
  ApiService.truthy (Some ttl) = true ->
  (forall entry,
      cache !! (endpoint +:+ "_" +:+ options) = Some entry ->
      lt (sub (ApiService.now_check clock) (ApiService.entry_timestamp entry))
         (ApiService.entry_ttl entry) = false) ->
  ApiService.attempt fetched = inr body ->
  let first := ApiService.makeRequest cache endpoint options (Some ttl) clock fetched in
  RateProvider.data first.1 = Some body /\
  forall (ttl' : number) (clock' : ApiService.Clock) (fetched' : ApiService.Fetched),
    ApiService.truthy (Some ttl') = true ->
    lt (sub (ApiService.now_check clock') (ApiService.now_store clock)) ttl = true ->
    ApiService.makeRequest first.2 endpoint options (Some ttl') clock' fetched' = first.
Proof.
  intros Httl Hmiss Hbody. cbv zeta.
  set (key := endpoint +:+ "_" +:+ options) in *.
  assert (forall c,
             ApiService.request c key (Some ttl) clock fetched
             = ({| RateProvider.success := true; RateProvider.data := Some body;
                   RateProvider.error := None;
                   RateProvider.timestamp := ApiService.now_iso clock |},
                <[key := {| ApiService.entry_data :=
                              {| RateProvider.success := true; RateProvider.data := Some body;
                                 RateProvider.error := None;
                                 RateProvider.timestamp := ApiService.now_iso clock |};
                            ApiService.entry_timestamp := ApiService.now_store clock;
                            ApiService.entry_ttl := ttl |}]> c)) as Hrequest.
  { intros c. unfold ApiService.request. rewrite Hbody, Httl. reflexivity. }
  assert (exists c,
             ApiService.makeRequest cache endpoint options (Some ttl) clock fetched
             = ApiService.request c key (Some ttl) clock fetched) as [c Hfirst].
  { unfold ApiService.makeRequest. fold key. rewrite Httl.
    destruct (cache !! key) as [entry|] eqn:Hentry; [|eauto].
    rewrite (Hmiss entry eq_refl). eauto. }
  rewrite Hfirst, Hrequest. cbn [fst snd RateProvider.data]. split; [reflexivity|].
  intros ttl' clock' fetched' Httl' Hfresh.
  unfold ApiService.makeRequest. fold key. rewrite Httl', lookup_insert_eq.
  cbn [ApiService.entry_timestamp ApiService.entry_ttl ApiService.entry_data].
  rewrite Hfresh. reflexivity.
Qed.

Lemma makeRequest_store_then_hit_witness :
  let clock :=
    {| ApiService.now_check := num 1000; ApiService.now_iso := "2025-01-01T00:00:01.000Z";
       ApiService.now_store := num 1200 |} in
  let fetched :=
    ApiService.Resolved
      {| ApiService.ok := true; ApiService.status := 200%N; ApiService.statusText := "OK";
         ApiService.json_body := inr (RateProvider.JArr []) |} in
  let first :=
    ApiService.makeRequest ∅ ApiService.exchangeRates_endpoint ApiService.GET_options
      (Some (num 300000)) clock fetched in
  RateProvider.data first.1 = Some (RateProvider.JArr []) /\
  forall (ttl' : number) (clock' : ApiService.Clock) (fetched' : ApiService.Fetched),
    ApiService.truthy (Some ttl') = true ->
    lt (sub (ApiService.now_check clock') (ApiService.now_store clock)) (num 300000) = true ->
    ApiService.makeRequest first.2 ApiService.exchangeRates_endpoint ApiService.GET_options
      (Some ttl') clock' fetched' = first.
Proof.
  cbv zeta.
  apply (makeRequest_store_then_hit ∅ ApiService.exchangeRates_endpoint
           ApiService.GET_options (num 300000)).
  - reflexivity.
  - intros entry H. rewrite lookup_empty in H. discriminate.
  - reflexivity.
Defined.

(** An entry that has outlived its cache time is never served, not even
    when fetching anew fails: the call returns the NETWORK_ERROR response and
    the entry is gone from the cache. *)
Theorem makeRequest_stale_entry_dropped
    (cache : gmap string ApiService.CacheEntry) (endpoint options : string)
    (cacheTTL : option number) (clock : ApiService.Clock) (fetched : ApiService.Fetched)
    (entry : ApiService.CacheEntry) (thrown : ApiService.Thrown) :
  ApiService.truthy cacheTTL = true ->
  cache !! (endpoint +:+ "_" +:+ options) = Some entry ->
  lt (sub (ApiService.now_check clock) (ApiService.entry_timestamp entry))
     (ApiService.entry_ttl entry) = false ->
  ApiService.attempt fetched = inl thrown ->
  ApiService.makeRequest cache endpoint options cacheTTL clock fetched
  = (ApiService.network_error thrown (ApiService.now_iso clock),
     delete (endpoint +:+ "_" +:+ options) cache).
Proof.
  intros Httl Hentry Hstale Hthrown.
  unfold ApiService.makeRequest, ApiService.request.
  rewrite Httl, Hentry, Hstale, Hthrown. reflexivity.
Qed.

Lemma makeRequest_stale_entry_dropped_witness :
  let entry :=
    {| ApiService.entry_data := answered (RateProvider.JArr []);
       ApiService.entry_timestamp := num 0; ApiService.entry_ttl := num 300000 |} in
  let clock :=
    {| ApiService.now_check := num 300000; ApiService.now_iso := "2025-01-01T00:05:00.000Z";
       ApiService.now_store := num 300100 |} in
  ApiService.makeRequest {[ "/rates_{}" := entry ]} "/rates" "{}" (Some (num 300000)) clock
    (ApiService.Rejected (ApiService.ErrorObject "Failed to fetch"))
  = (ApiService.network_error (ApiService.ErrorObject "Failed to fetch")
       "2025-01-01T00:05:00.000Z",
     delete ("/rates" +:+ "_" +:+ "{}") {[ "/rates_{}" := entry ]}).
Proof.
  intros entry clock.
  apply (makeRequest_stale_entry_dropped {[ "/rates_{}" := entry ]} "/rates" "{}"
           (Some (num 300000)) clock
           (ApiService.Rejected (ApiService.ErrorObject "Failed to fetch"))
           entry (ApiService.ErrorObject "Failed to fetch"));
    reflexivity.
Defined.

(** X13: when the rates are not served from the cache and the fetch fails
    (rejected promise, status that is not ok, or a body that is no JSON),
    getExchangeRates answers with its own failure, code EXCHANGE_RATES_ERROR:
    the NETWORK_ERROR and its message are not passed on, and nothing is
    added to the cache. *)
Theorem fetchExchangeRates_network_failure
    (cache : gmap string ApiService.CacheEntry) (clock : ApiService.Clock)
    (fetched : ApiService.Fetched) (now : string) (thrown : ApiService.Thrown) :
  ApiService.attempt fetched = inl thrown ->
  (forall entry,
      cache !! (ApiService.exchangeRates_endpoint +:+ "_" +:+ ApiService.GET_options)
      = Some entry ->
      lt (sub (ApiService.now_check clock) (ApiService.entry_timestamp entry))
         (ApiService.entry_ttl entry) = false) ->
  (ApiService.fetchExchangeRates cache clock fetched now).1 = RateProvider.failure now /\
  (ApiService.fetchExchangeRates cache clock fetched now).2
  = delete (ApiService.exchangeRates_endpoint +:+ "_" +:+ ApiService.GET_options) cache.
Proof.
  intros Hthrown Hmiss. unfold ApiService.fetchExchangeRates, ApiService.makeRequest.
  set (key := ApiService.exchangeRates_endpoint +:+ "_" +:+ ApiService.GET_options) in *.
  change (ApiService.truthy (Some (mul (mul (num 5) (num 60)) (num 1000)))) with true.
  cbv iota.
  destruct (cache !! key) as [entry|] eqn:Hentry.
  - rewrite (Hmiss entry eq_refl). unfold ApiService.request. rewrite Hthrown.
    simpl. auto.
  - unfold ApiService.request. rewrite Hthrown. simpl. split; [reflexivity|].
    symmetry. apply delete_id. exact Hentry.
Qed.

Lemma fetchExchangeRates_network_failure_witness :
  let clock :=
    {| ApiService.now_check := num 1000; ApiService.now_iso := "2025-01-01T00:00:01.000Z";
       ApiService.now_store := num 1200 |} in
  let fetched :=
    ApiService.Resolved
      {| ApiService.ok := false; ApiService.status := 503%N;
         ApiService.statusText := "Service Unavailable";
         ApiService.json_body := inr RateProvider.JNull |} in
  (ApiService.fetchExchangeRates ∅ clock fetched "2025-01-01T00:00:02.000Z").1
  = RateProvider.failure "2025-01-01T00:00:02.000Z" /\
  (ApiService.fetchExchangeRates ∅ clock fetched "2025-01-01T00:00:02.000Z").2
  = delete (ApiService.exchangeRates_endpoint +:+ "_" +:+ ApiService.GET_options) ∅.
Proof.
  intros clock fetched.
  apply (fetchExchangeRates_network_failure ∅ clock fetched "2025-01-01T00:00:02.000Z"
           (ApiService.ErrorObject "HTTP 503: Service Unavailable")).
  - reflexivity.
  - intros entry H. rewrite lookup_empty in H. discriminate.
Defined.

(** ** Security utilities *)

Section SecurityLemmas.
Import Security.

Lemma validatePassword_valid (password : list N) :
  password_isValid (validatePassword password)
  = negb (length password <? 8)%nat && existsb is_upper password
    && existsb is_lower password && existsb is_decimal password
    && existsb is_special password.
Proof.
  unfold validatePassword, password_rules, push_if; simpl.
  destruct (length password <? 8)%nat, (existsb is_upper password),
    (existsb is_lower password), (existsb is_decimal password),
    (existsb is_special password); reflexivity.
Qed.

Lemma validatePassword_errors_nil (password : list N) :
  errors (validatePassword password) = [] <->
  password_isValid (validatePassword password) = true.
Proof.
  unfold validatePassword. cbn [errors password_isValid].
  destruct (push_if _ _ _); simpl; split; congruence.
Qed.

Lemma existsb_elem_of (class : N -> bool) (s : list N) :
  existsb class s = true <-> exists c, c ∈ s /\ class c = true.
Proof.
  rewrite existsb_exists. split; intros (c & Hc & H); exists c; split; auto;
    apply list_elem_of_In; exact Hc.
Qed.

(** [Many class :: rest] takes a non-empty run of the class and leaves the
    remainder to [rest]. *)
Lemma test_many (class : N -> bool) (rest : list Piece) (s : list N) :
  test (Many class :: rest) s = true <->
  exists run s', s = run ++ s' /\ run <> [] /\ forallb class run = true /\
                 test rest s' = true.
Proof.
  induction s as [|c s IH].
  - simpl. split; [discriminate|]. intros (run & s' & Heq & Hne & _).
    destruct run; [congruence|discriminate].
  - change (test (Many class :: rest) (c :: s))
      with (class c && (test rest s || test (Many class :: rest) s)).
    rewrite andb_true_iff, orb_true_iff, IH. split.
    + intros [Hc [Hrest|(run & s' & -> & Hne & Hrun & Hrest)]].
      * exists [c], s. simpl. rewrite Hc. repeat split; auto; discriminate.
      * exists (c :: run), s'. simpl. rewrite Hc, Hrun. repeat split; auto; discriminate.
    + intros (run & s' & Heq & Hne & Hrun & Hrest).
      destruct run as [|c' run]; [congruence|].
      simpl in Heq, Hrun. injection Heq as <- ->.
      apply andb_true_iff in Hrun as [Hc Hrun]. split; [exact Hc|].
      destruct run as [|c'' run]; [left; exact Hrest|].
      right. exists (c'' :: run), s'. repeat split; auto; discriminate.
Qed.

Lemma test_one (class : N -> bool) (rest : list Piece) (s : list N) :
  test (One class :: rest) s = true <->
  exists c s', s = c :: s' /\ class c = true /\ test rest s' = true.
Proof.
  destruct s as [|c s]; simpl.
  - split; [discriminate|]. intros (c & s' & H & _). discriminate.
  - rewrite andb_true_iff. split.
    + intros [Hc Hrest]. eauto.
    + intros (c' & s' & [= -> ->] & Hc & Hrest). auto.
Qed.

Lemma test_end (s : list N) : test [] s = true <-> s = [].
Proof. destruct s; simpl; split; congruence. Qed.

Lemma entity_no_markup (x c : N) :
  c ∈ entity x -> c <> 60%N /\ c <> 62%N /\ c <> 34%N /\ c <> 39%N.
Proof.
  unfold entity, is_unit.
  destruct (N.eqb_spec x 60); [|destruct (N.eqb_spec x 62); [|
  destruct (N.eqb_spec x 34); [|destruct (N.eqb_spec x 39); [|
  destruct (N.eqb_spec x 38)]]]];
    intros Hc; vm_compute in Hc;
    repeat (apply elem_of_cons in Hc as [->|Hc]; [repeat split; congruence|]);
    apply not_elem_of_nil in Hc; contradiction.
Qed.

(** The replacement of a unit tells the unit: two replacements that start
    two equal lists are the same, and so are the units and the rests. *)
Lemma entity_prefix (x y : N) (r1 r2 : list N) :
  entity x ++ r1 = entity y ++ r2 -> x = y /\ r1 = r2.
Proof.
  unfold entity, is_unit.
  destruct (N.eqb_spec x 60); [|destruct (N.eqb_spec x 62); [|
  destruct (N.eqb_spec x 34); [|destruct (N.eqb_spec x 39); [|
  destruct (N.eqb_spec x 38)]]]];
  (destruct (N.eqb_spec y 60); [|destruct (N.eqb_spec y 62); [|
   destruct (N.eqb_spec y 34); [|destruct (N.eqb_spec y 39); [|
   destruct (N.eqb_spec y 38)]]]]);
  intros H; vm_compute in H; try discriminate;
    try (injection H; intros; subst; split; congruence).
Qed.

End SecurityLemmas.

(** X14: validatePassword accepts a password exactly when it has at least 8
    code units and holds an uppercase letter A-Z, a lowercase letter a-z, a
    digit and one of the listed special characters; the list of errors is
    empty exactly then. *)
Theorem validatePassword_valid_iff (password : list N) :
  (Security.password_isValid (Security.validatePassword password) = true <->
   (8 <= length password)%nat /\
   (exists c, c ∈ password /\ Security.is_upper c = true) /\
   (exists c, c ∈ password /\ Security.is_lower c = true) /\
   (exists c, c ∈ password /\ Security.is_decimal c = true) /\
   (exists c, c ∈ password /\ Security.is_special c = true)) /\
  (Security.errors (Security.validatePassword password) = [] <->
   Security.password_isValid (Security.validatePassword password) = true).
Proof.
  split; [|apply validatePassword_errors_nil].
  rewrite validatePassword_valid, !andb_true_iff, negb_true_iff, Nat.ltb_ge,
    !existsb_elem_of.
  tauto.
Qed.

(** A string the email pattern fits falls into the three parts. *)
Lemma email_pattern_parts (email : list N) :
  Security.validateEmail email = true ->
  exists local domain tld,
    email = local ++ [64%N] ++ domain ++ [46%N] ++ tld /\
    local <> [] /\ domain <> [] /\ tld <> [] /\
    forallb Security.no_space_no_at (local ++ domain ++ tld) = true.
Proof.
  unfold Security.validateEmail, Security.email_pattern. rewrite test_many.
  intros (local & s1 & -> & Hlocal & Hl & H1).
  apply test_one in H1 as (c1 & s2 & -> & Hc1 & H2).
  apply test_many in H2 as (domain & s3 & -> & Hdomain & Hd & H3).
  apply test_one in H3 as (c2 & s4 & -> & Hc2 & H4).
  apply test_many in H4 as (tld & s5 & -> & Htld & Ht & H5).
  apply test_end in H5 as ->.
  apply N.eqb_eq in Hc1 as ->. apply N.eqb_eq in Hc2 as ->.
  exists local, domain, tld. rewrite app_nil_r, !forallb_app, Hl, Hd, Ht.
  repeat split; auto.
Qed.

(** X15: validateEmail accepts exactly the strings local@domain.tld in which
    the three parts are non-empty and hold neither white space nor another
    at-sign; the point that is matched may be any point of the text after
    the at-sign that is neither its first nor its last character. *)
Theorem validateEmail_iff (email : list N) :
  Security.validateEmail email = true <->
  exists local domain tld,
    email = local ++ [64%N] ++ domain ++ [46%N] ++ tld /\
    local <> [] /\ domain <> [] /\ tld <> [] /\
    forallb Security.no_space_no_at (local ++ domain ++ tld) = true.
Proof.
  split; [apply email_pattern_parts|].
  unfold Security.validateEmail, Security.email_pattern. rewrite test_many.
  intros (local & domain & tld & -> & Hlocal & Hdomain & Htld & Hall).
  rewrite !forallb_app, !andb_true_iff in Hall. destruct Hall as (Hl & Hd & Ht).
  exists local, ([64%N] ++ domain ++ [46%N] ++ tld). repeat split; auto.
  apply test_one. exists 64%N, (domain ++ [46%N] ++ tld). repeat split.
  apply test_many. exists domain, ([46%N] ++ tld). repeat split; auto.
  apply test_one. exists 46%N, tld. repeat split.
  apply test_many. exists tld, []. rewrite app_nil_r. repeat split; auto.
Qed.

(** X16: an address validateEmail accepts holds exactly one at-sign and no
    white space. *)
Theorem validateEmail_one_at (email : list N) :
  Security.validateEmail email = true ->
  count_occ N.eq_dec email 64%N = 1%nat /\
  forall c, c ∈ email -> Security.is_space c = false.
Proof.
  intros (local & domain & tld & -> & _ & _ & _ & Hall)%email_pattern_parts.
  rewrite !forallb_app, !andb_true_iff in Hall. destruct Hall as (Hl & Hd & Ht).
  assert (forall s, forallb Security.no_space_no_at s = true ->
                    count_occ N.eq_dec s 64%N = 0%nat /\
                    forall c, c ∈ s -> Security.is_space c = false) as Hpart.
  { intros s Hs. rewrite forallb_forall in Hs. split.
    - apply count_occ_not_In. intros Hin. specialize (Hs _ Hin).
      unfold Security.no_space_no_at in Hs. rewrite andb_true_iff in Hs.
      destruct Hs as [_ Hs]. discriminate.
    - intros c Hc%list_elem_of_In. specialize (Hs _ Hc).
      unfold Security.no_space_no_at in Hs. rewrite andb_true_iff, !negb_true_iff in Hs.
      tauto. }
  destruct (Hpart _ Hl) as [Hl0 Hls], (Hpart _ Hd) as [Hd0 Hds], (Hpart _ Ht) as [Ht0 Hts].
  split.
  - rewrite !count_occ_app, Hl0, Hd0, Ht0. reflexivity.
  - intros c. rewrite !elem_of_app, !list_elem_of_singleton.
    intros [H|[->|[H|[->|H]]]]; auto.
Qed.

Lemma validateEmail_one_at_witness :
  count_occ N.eq_dec (Security.units "john.doe@example.com") 64%N = 1%nat /\
  forall c, c ∈ Security.units "john.doe@example.com" -> Security.is_space c = false.
Proof. apply validateEmail_one_at. reflexivity. Defined.

(** X17: validatePhone looks only at the digits and plus signs of its input
    and accepts exactly when there are 10 to 15 of them and the first is a
    plus sign or a zero; too few is reported before too many, and that before
    a wrong first character. *)
Theorem validatePhone_valid_iff (phone : list N) :
  let cleaned := Security.clean_phone phone in
  (Security.phone_isValid (Security.validatePhone phone) = true <->
   (10 <= length cleaned <= 15)%nat /\
   (Security.starts_with 43 cleaned = true \/ Security.starts_with 48 cleaned = true)) /\
  ((length cleaned < 10)%nat ->
   Security.phone_error (Security.validatePhone phone)
   = Some "Phone number must be at least 10 digits") /\
  ((15 < length cleaned)%nat ->
   Security.phone_error (Security.validatePhone phone)
   = Some "Phone number cannot exceed 15 digits") /\
  Security.validatePhone (Security.clean_phone phone) = Security.validatePhone phone.
Proof.
  cbv zeta.
  assert (Security.clean_phone (Security.clean_phone phone) = Security.clean_phone phone)
    as Hidem by apply list_filter_filter_l, (fun _ H => H).
  unfold Security.validatePhone, Security.phone_minLength, Security.phone_maxLength.
  rewrite Hidem.
  destruct (Nat.ltb_spec (length (Security.clean_phone phone)) 10);
    [|destruct (Nat.ltb_spec 15 (length (Security.clean_phone phone)))].
  - split; [split; [discriminate|lia]|].
    split; [reflexivity|]. split; [lia|reflexivity].
  - split; [split; [discriminate|lia]|].
    split; [lia|]. split; [reflexivity|reflexivity].
  - split; [|split; [lia|split; [lia|reflexivity]]].
    destruct (Security.starts_with 43 _), (Security.starts_with 48 _); simpl;
      (split; [intros Hv; first [discriminate|split; [lia|auto]]
              |intros [_ [Hs|Hs]]; first [discriminate|reflexivity]]).
Qed.

(** X18: the output of sanitizeInput holds no less-than sign, no
    greater-than sign, no double quote and no apostrophe, whatever the
    input. *)
Theorem sanitizeInput_no_markup (input : list N) (c : N) :
  c ∈ Security.sanitizeInput input ->
  c <> 60%N /\ c <> 62%N /\ c <> 34%N /\ c <> 39%N.
Proof.
  unfold Security.sanitizeInput. intros Hc%list_elem_of_In.
  apply in_flat_map in Hc as (x & _ & Hc). apply list_elem_of_In in Hc.
  exact (entity_no_markup x c Hc).
Qed.

Lemma sanitizeInput_no_markup_witness :
  38%N <> 60%N /\ 38%N <> 62%N /\ 38%N <> 34%N /\ 38%N <> 39%N.
Proof.
  apply (sanitizeInput_no_markup (Security.units "<b>") 38%N).
  vm_compute. apply list_elem_of_here.
Defined.

(** X19: sanitizeInput loses nothing: two inputs with the same output are the
    same input. *)
Theorem sanitizeInput_injective (a b : list N) :
  Security.sanitizeInput a = Security.sanitizeInput b -> a = b.
Proof.
  unfold Security.sanitizeInput. revert b.
  induction a as [|x a IH]; intros [|y b]; simpl; intros H.
  - reflexivity.
  - exfalso. symmetry in H. apply app_eq_nil in H as [H _].
    unfold Security.entity in H.
    repeat (destruct (Security.is_unit _ _) in H; [discriminate|]). discriminate.
  - exfalso. apply app_eq_nil in H as [H _].
    unfold Security.entity in H.
    repeat (destruct (Security.is_unit _ _) in H; [discriminate|]). discriminate.
  - apply entity_prefix in H as [-> H]. f_equal. apply IH, H.
Qed.

Lemma sanitizeInput_injective_witness : Security.units "a&b" = Security.units "a&b".
Proof. apply sanitizeInput_injective. reflexivity. Defined.

(** ** The rate limiter *)

Section RateLimitLemmas.
Import RateLimit.

Variables (key : string) (attempts windowMs : Z).

(** A call inside the open window of the stored record. *)
Lemma checkRateLimit_open_window (storage : gmap string RateData) (d : RateData) (now : Z) :
  storage !! ("rate_limit_" +:+ key) = Some d -> now < resetTime d ->
  checkRateLimit storage key attempts windowMs now =
    if count d <? attempts then
      ({| allowed := true; remaining := Z.max 0 (attempts - (count d + 1));
          result_resetTime := resetTime d |},
       <["rate_limit_" +:+ key := {| count := count d + 1; resetTime := resetTime d |}]> storage)
    else
      ({| allowed := false; remaining := Z.max 0 (attempts - count d);
          result_resetTime := resetTime d |}, storage).
Proof.
  intros Hd Hopen. unfold checkRateLimit. rewrite Hd.
  destruct (Z.leb_spec (resetTime d) now); [lia|].
  destruct (count d <? attempts); reflexivity.
Qed.

Lemma granted_cons (b : bool) (answers : list bool) :
  granted (b :: answers) = (if b then 1 else 0) + granted answers.
Proof.
  unfold granted. rewrite filter_cons. destruct b.
  - rewrite decide_True by reflexivity. simpl length. lia.
  - rewrite decide_False by discriminate. lia.
Qed.

Lemma calls_open_window (times : list Z) :
  forall (storage : gmap string RateData) (d : RateData),
    storage !! ("rate_limit_" +:+ key) = Some d ->
    Forall (fun now => now < resetTime d) times ->
    granted (calls storage key attempts windowMs times).1
    = Z.min (Z.of_nat (length times)) (Z.max 0 (attempts - count d)).
Proof.
  induction times as [|now later IH]; intros storage d Hd Hopen.
  - simpl. unfold granted. simpl. lia.
  - apply Forall_cons in Hopen as [Hnow Hlater].
    cbn [calls]. rewrite (checkRateLimit_open_window storage d now Hd Hnow).
    destruct (Z.ltb_spec (count d) attempts) as [Hroom|Hfull].
    + specialize (IH (<["rate_limit_" +:+ key :=
                         {| count := count d + 1; resetTime := resetTime d |}]> storage)
                     {| count := count d + 1; resetTime := resetTime d |}
                     (lookup_insert_eq _ _ _) Hlater).
      destruct (calls _ key attempts windowMs later) as [answers storage''].
      cbn [fst allowed] in *. rewrite granted_cons, IH. cbn [count length]. lia.
    + specialize (IH storage d Hd Hlater).
      destruct (calls storage key attempts windowMs later) as [answers storage''].
      cbn [fst allowed] in *. rewrite granted_cons, IH. cbn [length]. lia.
Qed.

End RateLimitLemmas.

(** X20: within one window the rate limiter grants exactly the number of
    attempts and refuses the rest.  For a key with no stored record, a first
    call at time t and any later calls before t + windowMs, the number of
    calls allowed is the smaller of the number of calls and of attempts (none
    if attempts is not positive). *)
Theorem checkRateLimit_window
    (storage : gmap string RateLimit.RateData) (key : string)
    (attempts windowMs first : Z) (later : list Z) :
  storage !! ("rate_limit_" +:+ key) = None ->
  0 < windowMs ->
  Forall (fun now => now < first + windowMs) later ->
  RateLimit.granted (RateLimit.calls storage key attempts windowMs (first :: later)).1
  = Z.min (Z.of_nat (length (first :: later))) (Z.max 0 attempts).
Proof.
  intros Hnone Hwindow Hlater. cbn [RateLimit.calls].
  assert (RateLimit.checkRateLimit storage key attempts windowMs first =
          if 0 <? attempts then
            ({| RateLimit.allowed := true; RateLimit.remaining := Z.max 0 (attempts - 1);
                RateLimit.result_resetTime := first + windowMs |},
             <["rate_limit_" +:+ key :=
                 {| RateLimit.count := 1; RateLimit.resetTime := first + windowMs |}]> storage)
          else
            ({| RateLimit.allowed := false; RateLimit.remaining := Z.max 0 attempts;
                RateLimit.result_resetTime := first + windowMs |}, storage)) as Hfirst.
  { unfold RateLimit.checkRateLimit. rewrite Hnone. cbn [RateLimit.resetTime RateLimit.count].
    destruct (Z.leb_spec (first + windowMs) first); [lia|].
    cbn [RateLimit.count RateLimit.resetTime].
    destruct (0 <? attempts); cbn [RateLimit.count RateLimit.resetTime];
      rewrite ?Z.sub_0_r; reflexivity. }
  rewrite Hfirst. destruct (Z.ltb_spec 0 attempts) as [Hpos|Hnonpos].
  - pose proof (calls_open_window key attempts windowMs later
                  (<["rate_limit_" +:+ key :=
                       {| RateLimit.count := 1; RateLimit.resetTime := first + windowMs |}]> storage)
                  {| RateLimit.count := 1; RateLimit.resetTime := first + windowMs |}
                  (lookup_insert_eq _ _ _) Hlater) as Hrest.
    destruct (RateLimit.calls _ key attempts windowMs later) as [answers storage''].
    cbn [fst RateLimit.allowed RateLimit.count] in *.
    rewrite granted_cons, Hrest. cbn [length]. lia.
  - assert (forall times s,
               s !! ("rate_limit_" +:+ key) = None ->
               Forall (fun now => now < first + windowMs) times ->
               RateLimit.granted (RateLimit.calls s key attempts windowMs times).1 = 0) as Hnever.
    { induction times as [|now times IH]; intros s Hs Htimes; [reflexivity|].
      apply Forall_cons in Htimes as [_ Htimes]. cbn [RateLimit.calls].
      unfold RateLimit.checkRateLimit at 1. rewrite Hs.
      cbn [RateLimit.resetTime RateLimit.count].
      assert (RateLimit.count
                (if now + windowMs <=? now
                 then {| RateLimit.count := 0; RateLimit.resetTime := now + windowMs |}
                 else {| RateLimit.count := 0; RateLimit.resetTime := now + windowMs |}) = 0)
        as -> by (destruct (_ <=? _); reflexivity).
      destruct (Z.ltb_spec 0 attempts); [lia|].
      specialize (IH s Hs Htimes).
      destruct (RateLimit.calls s key attempts windowMs times) as [answers s''].
      cbn [fst RateLimit.allowed] in *. rewrite granted_cons, IH. reflexivity. }
    specialize (Hnever later storage Hnone Hlater).
    destruct (RateLimit.calls storage key attempts windowMs later) as [answers storage''].
    cbn [fst RateLimit.allowed] in *. rewrite granted_cons, Hnever. cbn [length]. lia.
Qed.

Lemma checkRateLimit_window_witness :
  RateLimit.granted (RateLimit.calls ∅ "login" 5 900000 [1000; 2000; 3000; 4000; 5000; 6000; 7000]).1
  = Z.min (Z.of_nat (length [1000; 2000; 3000; 4000; 5000; 6000; 7000])) (Z.max 0 5).
Proof.
  apply (checkRateLimit_window ∅ "login" 5 900000 1000 [2000; 3000; 4000; 5000; 6000; 7000]).
  - apply lookup_empty.
  - lia.
  - repeat constructor; lia.
Defined.


(** ** Suspicious activity *)

Section ActivityLemmas.
Import Activity.

Lemma gt_NaN (x : number) : gt NaN x = false.
Proof. now destruct x. Qed.

Lemma filter_length_cons {A} (p : A -> bool) (a : A) (l : list A) :
  length (List.filter p (a :: l))
  = ((if p a then 1 else 0) + length (List.filter p l))%nat.
Proof. simpl. destruct (p a); reflexivity. Qed.

End ActivityLemmas.

(** X22: detectSuspiciousActivity never flags fewer than three transactions,
    and one more transaction in the list never clears a flag. *)
Theorem detectSuspiciousActivity_monotone
    (getTime : string -> number) (now1 now2 : number)
    (recent : list Activity.Transaction) (t : Activity.Transaction) :
  ((length recent < 3)%nat ->
   Activity.isSuspicious (Activity.detectSuspiciousActivity getTime now1 now2 recent) = false) /\
  (Activity.isSuspicious (Activity.detectSuspiciousActivity getTime now1 now2 recent) = true ->
   Activity.isSuspicious (Activity.detectSuspiciousActivity getTime now1 now2 (t :: recent))
   = true).
Proof.
  unfold Activity.detectSuspiciousActivity. cbv zeta.
  set (large := fun t : Activity.Transaction => _ && _).
  set (recently := fun t : Activity.Transaction => gt _ _).
  pose proof (filter_length_cons large t recent) as Hlarge.
  pose proof (filter_length_cons recently t recent) as Hrecently.
  pose proof (List.filter_length_le large recent) as Hle1.
  pose proof (List.filter_length_le recently recent) as Hle2.
  split.
  - intros Hfew.
    destruct (Nat.leb_spec 3 (length (List.filter large recent))); [lia|].
    destruct (Nat.leb_spec 5 (length (List.filter recently recent))); [lia|reflexivity].
  - destruct (Nat.leb_spec 3 (length (List.filter large recent))) as [H3|H3].
    + intros _. destruct (Nat.leb_spec 3 (length (List.filter large (t :: recent))));
        [reflexivity|]. destruct (large t); lia.
    + destruct (Nat.leb_spec 5 (length (List.filter recently recent))) as [H5|H5];
        [|discriminate].
      intros _. destruct (Nat.leb_spec 3 (length (List.filter large (t :: recent))));
        [reflexivity|].
      destruct (Nat.leb_spec 5 (length (List.filter recently (t :: recent))));
        [reflexivity|]. destruct (recently t); lia.
Qed.

(** X23: a transaction whose timestamp is no date, so that getTime gives
    NaN, is not counted at all: the verdict is the one for the list without
    it. *)
Theorem detectSuspiciousActivity_ignores_bad_dates
    (getTime : string -> number) (now1 now2 : number)
    (recent : list Activity.Transaction) (t : Activity.Transaction) :
  getTime (Activity.timestamp t) = NaN ->
  Activity.detectSuspiciousActivity getTime now1 now2 (t :: recent)
  = Activity.detectSuspiciousActivity getTime now1 now2 recent.
Proof.
  intros Hbad. unfold Activity.detectSuspiciousActivity. cbv zeta.
  cbn [List.filter]. rewrite Hbad, !gt_NaN. reflexivity.
Qed.

Lemma detectSuspiciousActivity_ignores_bad_dates_witness :
  Activity.detectSuspiciousActivity (fun _ => NaN) (num 1000) (num 1000)
    [{| Activity.amount := num 5000; Activity.timestamp := "yesterday" |}]
  = Activity.detectSuspiciousActivity (fun _ => NaN) (num 1000) (num 1000) [].
Proof. apply detectSuspiciousActivity_ignores_bad_dates. reflexivity. Defined.

(** ** Savings, verification and the country table *)

Section FinancialMoreLemmas.
Import FinancialMore.

Lemma Math_max_0 (x : number) :
  let r := Math_max (num 0) x in
  isNaN r = isNaN x /\
  (isNaN x = false -> le (num 0) r = true /\ r <> S754_zero true).
Proof.
  destruct x as [[]|[]| |[] m e]; cbv zeta; split; try reflexivity;
    intros H; try discriminate H; split; try reflexivity; discriminate.
Qed.

(** Below a number is not at or above it. *)
Lemma lt_not_ge (a b : number) : lt a b = true -> ge a b = false.
Proof.
  unfold lt, ge, SFltb, SFleb.
  destruct a as [[]|[]| |[] m e], b as [[]|[]| |[] m' e']; try discriminate;
    try reflexivity; unfold SFcompare;
    rewrite (Z.compare_antisym e e');
    replace (Pos.compare_cont Eq m' m) with (CompOpp (Pos.compare_cont Eq m m'))
      by apply Pos.compare_cont_antisym;
    destruct (e ?= e'); cbn [CompOpp]; try discriminate; try reflexivity;
    destruct (Pos.compare_cont Eq m m'); cbn [CompOpp]; try discriminate; reflexivity.
Qed.

(** Below a positive double is below every positive double of a larger
    exponent. *)
Lemma lt_larger_limit (x lim1 lim2 : number) (m1 m2 : positive) (e1 e2 : Z) :
  lim1 = S754_finite false m1 e1 -> lim2 = S754_finite false m2 e2 -> e1 < e2 ->
  lt x lim1 = true -> lt x lim2 = true.
Proof.
  intros -> -> He. destruct x as [[]|[]| |[] m e]; try discriminate; try reflexivity.
  unfold lt, SFltb, SFcompare.
  destruct (Z.compare_spec e e1); destruct (Z.compare_spec e e2); try lia;
    try discriminate; reflexivity.
Qed.

(** Below the double 100 is not at or above 100, nor at or above 1000. *)
Lemma below_100 (amount : number) :
  lt amount (num 100) = true ->
  ge amount (num 100) = false /\ ge amount (num 1000) = false.
Proof.
  intros Hlt. split; [exact (lt_not_ge _ _ Hlt)|].
  apply lt_not_ge.
  eapply lt_larger_limit; cycle 3;
    [exact Hlt|vm_compute; reflexivity|vm_compute; reflexivity|lia].
Qed.

End FinancialMoreLemmas.

(** X24: calculateSavings is never negative and never -0: it is NaN exactly
    when 15% of the amount minus our fee is NaN, and otherwise a number at or
    above zero. *)
Theorem calculateSavings_not_negative (amount ourFee : number) :
  let savings := FinancialMore.calculateSavings amount ourFee in
  isNaN savings = isNaN (sub (mul amount (dec 15 2)) ourFee) /\
  (isNaN savings = false -> le (num 0) savings = true /\ savings <> S754_zero true).
Proof.
  cbv zeta. unfold FinancialMore.calculateSavings. cbv zeta.
  destruct (Math_max_0 (sub (mul amount (dec 15 2)) ourFee)) as [Hnan Hpos].
  split; [exact Hnan|]. rewrite Hnan. exact Hpos.
Qed.

(** X25: for a signed-in user, whatever the age of the account, enhanced
    verification is required for every amount of 1000 or more and for no
    amount below 100, and not for an amount of NaN; without a user it is
    always required. *)
Theorem requiresEnhancedVerification_thresholds
    (getTime : string -> number) (now : number) (user : LimitValidator.User) :
  (forall amount,
      FinancialMore.requiresEnhancedVerification getTime now amount None = true) /\
  (forall amount,
      FinancialMore.ge amount (num 1000) = true ->
      FinancialMore.requiresEnhancedVerification getTime now amount (Some user) = true) /\
  (forall amount,
      lt amount (num 100) = true ->
      FinancialMore.requiresEnhancedVerification getTime now amount (Some user) = false) /\
  FinancialMore.requiresEnhancedVerification getTime now NaN (Some user) = false.
Proof.
  unfold FinancialMore.requiresEnhancedVerification. repeat split.
  - intros amount ->. reflexivity.
  - intros amount [-> ->]%below_100. apply andb_false_r.
  - change (FinancialMore.ge NaN (num 1000)) with false.
    change (FinancialMore.ge NaN (num 100)) with false. cbv iota. apply andb_false_r.
Qed.

Lemma requiresEnhancedVerification_thresholds_witness :
  FinancialMore.requiresEnhancedVerification (fun _ => num 0) (num 1000) (num 50)
    (Some basic_user) = false.
Proof.
  apply (proj1 (proj2 (proj2 (requiresEnhancedVerification_thresholds
                                (fun _ => num 0) (num 1000) basic_user))) (num 50)).
  reflexivity.
Defined.

(** [calculateFee] charges the percentage that the COUNTRIES table lists
    for the destination: its own constants 10 and 20 agree with
    feePercentage of the table. *)
Theorem calculateFee_uses_table_percentage (amount : number) (d : DestinationCountry) :
  calculateFee amount d
  = div (ceil (mul (div (mul amount (FinancialMore.feePercentage (FinancialMore.COUNTRIES d)))
                        (num 100))
                   (num 100)))
        (num 100).
Proof. destruct d; reflexivity. Qed.

(** ** The country list *)

Section CountriesLemmas.
Import Countries.

Lemma startsWith_app (p rest : list N) : startsWith (p ++ rest) p = true.
Proof.
  induction p as [|k p IH]; simpl; [destruct rest; reflexivity|].
  rewrite N.eqb_refl. exact IH.
Qed.

End CountriesLemmas.

(** X26: looking a country up by its code finds that very country, for
    every country of the list, and whatever getCountryByCode finds is a
    country of the list with the code asked for. *)
Theorem getCountryByCode_round_trip :
  (forall country, In country Countries.COUNTRIES ->
                   Countries.getCountryByCode (Countries.code country) = Some country) /\
  (forall wanted found,
      Countries.getCountryByCode wanted = Some found ->
      In found Countries.COUNTRIES /\ Countries.code found = wanted).
Proof.
  split.
  - intros country Hin. unfold Countries.COUNTRIES in Hin. simpl in Hin.
    repeat (destruct Hin as [<-|Hin]; [vm_compute; reflexivity|]). contradiction.
  - intros wanted found Hfound. unfold Countries.getCountryByCode in Hfound.
    apply find_some in Hfound as [Hin Heq]. split; [exact Hin|].
    apply String.eqb_eq. exact Heq.
Qed.

(** X27: getCountryByPhoneCode returns the first country of the list with
    the phone code asked for; as the United States and Canada share +1 and
    the United States come first, Canada is never returned. *)
Theorem getCountryByPhoneCode_first (wanted : string) :
  (forall found, Countries.getCountryByPhoneCode wanted = Some found ->
                 In found Countries.COUNTRIES /\ Countries.phoneCode found = wanted) /\
  (forall found, Countries.getCountryByPhoneCode wanted = Some found ->
                 Countries.code found <> "CA") /\
  (wanted = "+1" ->
   option_map Countries.code (Countries.getCountryByPhoneCode wanted) = Some "US").
Proof.
  assert (forall found, Countries.getCountryByPhoneCode wanted = Some found ->
                        In found Countries.COUNTRIES /\ Countries.phoneCode found = wanted)
    as Hfound.
  { intros found H. unfold Countries.getCountryByPhoneCode in H.
    apply find_some in H as [Hin Heq]. split; [exact Hin|]. apply String.eqb_eq, Heq. }
  split; [exact Hfound|]. split.
  - intros found H Hcanada. destruct (Hfound found H) as [Hin Hcode].
    unfold Countries.COUNTRIES in Hin. simpl in Hin.
    repeat (destruct Hin as [<-|Hin]; [try discriminate Hcanada|]); [|contradiction].
    subst wanted. vm_compute in H. discriminate H.
  - intros ->. vm_compute. reflexivity.
Qed.

(** X28: for a country with a format, formatPhoneNumber returns a number
    that starts with the phone code of the country: the cleaned number itself
    when it starts with the code, and otherwise the code, a space and the
    cleaned number without a leading plus sign.  The output is made of the
    digits and plus signs of the input, the code and that one space. *)
Theorem formatPhoneNumber_starts_with_code
    (phone : list N) (country : Countries.CountryData) (pattern : string) :
  Countries.format country = Some pattern -> pattern <> EmptyString ->
  Countries.startsWith (Countries.formatPhoneNumber phone country)
    (Security.units (Countries.phoneCode country)) = true /\
  (Countries.formatPhoneNumber phone country = Security.clean_phone phone \/
   Countries.formatPhoneNumber phone country
   = Security.units (Countries.phoneCode country) ++ Security.units " "
       ++ Countries.drop_plus (Security.clean_phone phone)).
Proof.
  intros Hformat Hpattern. unfold Countries.formatPhoneNumber. rewrite Hformat.
  destruct pattern as [|c pattern]; [congruence|].
  cbv zeta.
  destruct (Countries.startsWith (Security.clean_phone phone) _) eqn:Hstarts; simpl negb.
  - cbv iota. rewrite Hstarts. auto.
  - cbv iota. rewrite startsWith_app. auto.
Qed.

Lemma formatPhoneNumber_starts_with_code_witness :
  let zimbabwe :=
    {| Countries.code := "ZW"; Countries.name := "Zimbabwe"; Countries.flag := "🇿🇼";
       Countries.phoneCode := "+263"; Countries.format := Some "+263 XX XXX XXXX" |} in
  Countries.startsWith (Countries.formatPhoneNumber (Security.units "077 123 4567") zimbabwe)
    (Security.units (Countries.phoneCode zimbabwe)) = true /\
  (Countries.formatPhoneNumber (Security.units "077 123 4567") zimbabwe
   = Security.clean_phone (Security.units "077 123 4567") \/
   Countries.formatPhoneNumber (Security.units "077 123 4567") zimbabwe
   = Security.units (Countries.phoneCode zimbabwe) ++ Security.units " "
       ++ Countries.drop_plus (Security.clean_phone (Security.units "077 123 4567"))).
Proof.
  intros zimbabwe.
  apply (formatPhoneNumber_starts_with_code (Security.units "077 123 4567") zimbabwe
           "+263 XX XXX XXXX"); [reflexivity|discriminate].
Defined.

(** ** The stored transactions *)

Section TransactionsLemmas.
Import Transactions.



End TransactionsLemmas.


